(** * Game-codes storefront and MMORPG helper: shallow embedding

    Two FastAPI services live in this repository:
    - [Storefront] embeds [src/backend/main.py] and [src/backend/schemas.py]
      (auth, catalogue, checkout, code allocation);
    - [GameStats] embeds [src/main.py] and [src/schemas.py] (the OSRS
      hiscore proxy and its search log).

    Python [int] is [Z], [str] is [string], [Optional] is [option], a
    [datetime] is a [Z] timestamp in seconds.  Handlers are functions in a
    state-and-exception monad over the document store. *)

From Stdlib Require Import Ascii String.
From stdpp Require Import base numbers option list strings pretty gmap.

Local Open Scope string_scope.
Local Open Scope list_scope.
Local Open Scope Z_scope.

Module Storefront.

(** ** Schemas ([src/backend/schemas.py]) *)

Module Product.
Record t := mk {
  title : string;
  game : string;
  reward_type : string;
  description : string;
  images : list string;
  price_cents : Z;
  currency : string;
  active : bool;
  tags : list string;
  created_at : option Z;
  updated_at : option Z }.
End Product.

Module CodeKey.
Record t := mk {
  product_id : string;
  code : string;
  assigned : bool;
  order_id : option string;
  created_at : option Z;
  updated_at : option Z }.
End CodeKey.

Module CartItem.
Record t := mk {
  product_id : string;
  quantity : Z }.

(** [quantity: int = Field(..., ge=1, le=10)] *)
Definition valid (item : t) : Prop := 1 ≤ quantity item ≤ 10.
End CartItem.

Module OrderCreate.
Record t := mk {
  items : list CartItem.t;
  email : string;
  name : option string }.
End OrderCreate.

Module Order.
Record t := mk {
  user_id : option string;
  email : string;
  name : option string;
  items : list CartItem.t;
  subtotal_cents : Z;
  total_cents : Z;
  currency : string;
  payment_intent_id : option string;
  status : string;
  delivered_codes : list string;
  created_at : option Z;
  updated_at : option Z }.
End Order.

Module UserLogin.
Record t := mk {
  email : string;
  password : string }.
End UserLogin.

Module User.
Record t := mk {
  email : string;
  name : option string;
  password_hash : string;
  role : string;
  created_at : option Z;
  updated_at : option Z }.
End User.

Module TokenResponse.
Record t := mk {
  access_token : string;
  token_type : string }.
End TokenResponse.

(** ** Errors and the handler monad *)

(** [fastapi.HTTPException(status_code, detail)] *)
Record HTTPException := mkHTTPException {
  status_code : Z;
  detail : string }.

Inductive Result (A : Type) : Type :=
  | Ok (a : A)
  | Raise (e : HTTPException).
Arguments Ok {A} a.
Arguments Raise {A} e.

(** ** The document store *)

Definition ObjectId := string.

(** A stored document: the [_id] the store gave it and its fields. *)
Record Doc (A : Type) := mkDoc {
  _id : ObjectId;
  body : A }.
Arguments mkDoc {A} _ _.
Arguments _id {A} _.
Arguments body {A} _.

Record Database := mkDatabase {
  product : list (Doc Product.t);
  codekey : list (Doc CodeKey.t);
  order : list (Doc Order.t);
  user : list (Doc User.t);
  next_oid : nat }.

(** What a handler leaves behind outside its return value: a write to the
    store or an outbound HTTP request, in the order they happened. *)
Inductive Effect :=
  | Inserted (collection : string) (id : ObjectId)
  | HttpPost (url : string) (amount : Z) (currency : string).

Record World := mkWorld {
  db : Database;
  effects : list Effect }.

Definition M (A : Type) : Type := World → World * Result A.

Definition ret {A} (a : A) : M A := λ w, (w, Ok a).
Definition raise {A} (e : HTTPException) : M A := λ w, (w, Raise e).
Definition bind {A B} (m : M A) (k : A → M B) : M B :=
  λ w, match m w with
       | (w', Ok a) => k a w'
       | (w', Raise e) => (w', Raise e)
       end.

#[global] Instance M_ret : MRet M := @ret.
#[global] Instance M_bind : MBind M := λ A B k m, bind m k.

(** A collection of the store, by name, with its read and write access. *)
Record Collection (A : Type) := mkCollection {
  coll_name : string;
  coll_docs : Database → list (Doc A);
  coll_put : list (Doc A) → Database → Database }.
Arguments coll_name {A} _.
Arguments coll_docs {A} _ _.
Arguments coll_put {A} _ _ _.

Definition product_c : Collection Product.t :=
  mkCollection _ "product" product
    (λ l d, mkDatabase l (codekey d) (order d) (user d) (next_oid d)).
Definition codekey_c : Collection CodeKey.t :=
  mkCollection _ "codekey" codekey
    (λ l d, mkDatabase (product d) l (order d) (user d) (next_oid d)).
Definition order_c : Collection Order.t :=
  mkCollection _ "order" order
    (λ l d, mkDatabase (product d) (codekey d) l (user d) (next_oid d)).
Definition user_c : Collection User.t :=
  mkCollection _ "user" user
    (λ l d, mkDatabase (product d) (codekey d) (order d) l (next_oid d)).

(** The string form of the [n]-th identifier the store hands out. *)
Definition oid_of_nat (n : nat) : ObjectId := "oid" +:+ pretty n.

(** Modelled from the spec: [database.get_documents], the store adapter's
    [find(collection, filter, limit) -> [doc]], whose module is not among
    the sources.  It reads up to [limit] documents matching the filter, in
    store-iteration order, and changes nothing.  A filter dictionary is
    given as the predicate it denotes. *)
Definition get_documents {A} (c : Collection A) (q : Doc A → Prop)
    `{∀ d, Decision (q d)} (limit : Z) : M (list (Doc A)) :=
  λ w, (w, Ok (take (Z.to_nat limit) (filter q (coll_docs c (db w))))).

(** Modelled from the spec: [database.create_document], the store
    adapter's [create(collection, doc) -> id], whose module is not among
    the sources.  The document is appended to its collection under a new
    identifier, which is returned. *)
Definition create_document {A} (c : Collection A) (doc : A) : M ObjectId :=
  λ w, let id := oid_of_nat (next_oid (db w)) in
       let d := coll_put c (coll_docs c (db w) ++ [mkDoc id doc]) (db w) in
       (mkWorld (mkDatabase (product d) (codekey d) (order d) (user d)
                            (S (next_oid d)))
                (effects w ++ [Inserted (coll_name c) id]),
        Ok id).

(** The filter [{"_id": {"$oid": id}}]. *)
Definition by_oid {A} (id : string) (d : Doc A) : Prop := _id d = id.
#[global] Instance by_oid_dec {A} id (d : Doc A) : Decision (by_oid id d).
Proof. unfold by_oid. apply _. Defined.

(** ** Checkout confirmation ([checkout_confirm], [find_available_codes]) *)

Module CheckoutConfirmRequest.
Record t := mk {
  order_id : string;
  provider : string }.
End CheckoutConfirmRequest.

Module CheckoutConfirmResponse.
Record t := mk {
  order_id : string;
  codes : list string }.
End CheckoutConfirmResponse.

(** The filter [{"product_id": product_id, "assigned": False}]. *)
Definition unassigned_of (product_id : string) (d : Doc CodeKey.t) : Prop :=
  CodeKey.product_id (body d) = product_id ∧ CodeKey.assigned (body d) = false.
#[global] Instance unassigned_of_dec p d : Decision (unassigned_of p d).
Proof. unfold unassigned_of. apply _. Defined.

Definition find_available_codes (product_id : string) (quantity : Z)
    : M (list (Doc CodeKey.t)) :=
  docs ← get_documents codekey_c (unassigned_of product_id) quantity;
  mret docs.

(** What the framework answers when a handler dies of an exception that is
    not an [HTTPException] (here: an index out of range). *)
Definition internal_server_error : HTTPException :=
  mkHTTPException 500 "Internal Server Error".

(** [for i in range(qty): allocated_codes.append(available[i]["code"])],
    over the indices still to visit. *)
Fixpoint append_codes (available : list (Doc CodeKey.t)) (range : list nat)
    (allocated_codes : list string) : M (list string) :=
  match range with
  | [] => mret allocated_codes
  | i :: range' =>
      match available !! i with
      | Some code_doc =>
          append_codes available range'
            (allocated_codes ++ [CodeKey.code (body code_doc)])
      | None => raise internal_server_error
      end
  end.

(** [for item in order.get("items", []): ...], over the items still to
    visit. *)
Fixpoint allocate (items : list CartItem.t) (allocated_codes : list string)
    : M (list string) :=
  match items with
  | [] => mret allocated_codes
  | item :: items' =>
      let product_id := CartItem.product_id item in
      let qty := CartItem.quantity item in
      available ← find_available_codes product_id qty;
      if bool_decide (Z.of_nat (length available) < qty)
      then raise (mkHTTPException 409 "Insufficient stock for a product")
      else
        allocated_codes ← append_codes available (seq 0 (Z.to_nat qty))
                            allocated_codes;
        allocate items' allocated_codes
  end.

Definition checkout_confirm (payload : CheckoutConfirmRequest.t)
    : M CheckoutConfirmResponse.t :=
  orders ← get_documents order_c
              (by_oid (CheckoutConfirmRequest.order_id payload)) 1;
  match orders with
  | [] => raise (mkHTTPException 404 "Order not found")
  | order :: _ =>
      allocated_codes ← allocate (Order.items (body order)) [];
      mret (CheckoutConfirmResponse.mk
              (CheckoutConfirmRequest.order_id payload) allocated_codes)
  end.

(** ** Checkout initiation ([checkout_init]) *)

Module CheckoutInitResponse.
Record t := mk {
  client_secret : option string;
  order_id : string;
  total_cents : Z }.
End CheckoutInitResponse.

(** How a call into a library outside the repository ends. *)
Inductive Outcome (A : Type) : Type :=
  | Returned (a : A)
  | Raised (message : string).
Arguments Returned {A} a.
Arguments Raised {A} message.

(** The part of a [requests.Response] that [checkout_init] looks at: its
    [ok] flag, and the object [r.json()] decodes ([None] when decoding
    raises). *)
Record Response := mkResponse {
  ok : bool;
  json : option (gmap string string) }.

(** [jose.jwt] payloads as the service builds and reads them. *)
Record Claims := mkClaims {
  sub : option string;
  role : option string;
  exp : option Z }.

Module CurrentUser.
Record t := mk {
  email : string;
  role : string;
  _id : string }.
End CurrentUser.

Definition JWT_ALG : string := "HS256".

Definition stripe_url : string := "https://api.stripe.com/v1/payment_intents".

Section Server.

(** Process configuration ([os.getenv]). *)
Variable JWT_SECRET : string.
Variable STRIPE_API_KEY : string.

(** [datetime.utcnow()] at the time of the request. *)
Variable utcnow : Z.

(** The payment provider, as [requests.post(url, data, headers)] sees it:
    the answer to a payment-intent request for an amount and a currency
    under a bearer key. *)
Variable requests_post : string → Z → string → string → Outcome Response.

(** [jose.jwt.encode(claims, key, algorithm)] and
    [jose.jwt.decode(token, key, algorithms)] at the time of the request;
    [None] is a [JWTError] (bad signature, expired, malformed). *)
Variable jwt_encode : Claims → string → string → string.
Variable jwt_decode : string → string → list string → option Claims.

(** [pwd_context.verify(password, password_hash)] *)
Variable pwd_verify : string → string → bool.

(** [for item in payload.items: ...], over the items still to visit, with
    the running [subtotal] and [currency].  ([product_cache] is written
    and never read; it is left out.) *)
Fixpoint price_items (items : list CartItem.t) (subtotal : Z)
    (currency : string) : M (Z * string) :=
  match items with
  | [] => mret (subtotal, currency)
  | item :: items' =>
      prods ← get_documents product_c
                 (by_oid (CartItem.product_id item)) 1;
      match prods with
      | [] => raise (mkHTTPException 400
                       ("Invalid product " +:+ CartItem.product_id item))
      | p :: _ =>
          price_items items'
            (subtotal + Product.price_cents (body p) * CartItem.quantity item)
            (Product.currency (body p))
      end
  end.

(** The [if STRIPE_API_KEY: try: ... except Exception: ...] block: the
    request is sent, and every way it can go wrong leaves
    [client_secret = None]. *)
Definition payment_intent (total : Z) (currency : string)
    : M (option string) :=
  if bool_decide (STRIPE_API_KEY = "") then mret None
  else λ w,
    (mkWorld (db w) (effects w ++ [HttpPost stripe_url total currency]),
     Ok match requests_post stripe_url total currency STRIPE_API_KEY with
        | Returned r =>
            if ok r then
              match json r with
              | Some obj => obj !! "client_secret"
              | None => None
              end
            else None
        | Raised _ => None
        end).

Definition checkout_init (payload : OrderCreate.t)
    : M CheckoutInitResponse.t :=
  '(subtotal, currency) ← price_items (OrderCreate.items payload) 0 "usd";
  let total := subtotal in
  let order := Order.mk None (OrderCreate.email payload)
                 (OrderCreate.name payload) (OrderCreate.items payload)
                 subtotal total currency None "pending" []
                 (Some utcnow) (Some utcnow) in
  order_id ← create_document order_c order;
  client_secret ← payment_intent total currency;
  mret (CheckoutInitResponse.mk client_secret order_id total).

(** ** Authentication ([create_access_token], [get_current_user], [login]) *)

(** [expires_delta or timedelta(hours=12)]: an absent or zero delta gives
    twelve hours. *)
Definition create_access_token (data : Claims) (expires_delta : option Z)
    : string :=
  let delta := match expires_delta with
               | Some d => if bool_decide (d = 0) then 12 * 3600 else d
               | None => 12 * 3600
               end in
  let expire := utcnow + delta in
  let to_encode := mkClaims (sub data) (role data) (Some expire) in
  jwt_encode to_encode JWT_SECRET JWT_ALG.

(** The filter [{"email": email}]. *)
Definition by_email (email : string) (d : Doc User.t) : Prop :=
  User.email (body d) = email.
#[global] Instance by_email_dec e d : Decision (by_email e d).
Proof. unfold by_email. apply _. Defined.

Definition get_user_by_email (email : string) : M (option (Doc User.t)) :=
  res ← get_documents user_c (by_email email) 1;
  mret (head res).

Definition credentials_exception : HTTPException :=
  mkHTTPException 401 "Could not validate credentials".

Definition get_current_user (token : string) : M CurrentUser.t :=
  match jwt_decode token JWT_SECRET [JWT_ALG] with
  | None => raise credentials_exception
  | Some payload =>
      let role := default "user" (role payload) in
      match sub payload with
      | None => raise credentials_exception
      | Some email =>
          user ← get_user_by_email email;
          match user with
          | None => raise credentials_exception
          | Some user => mret (CurrentUser.mk email role (_id user))
          end
      end
  end.

Definition login (payload : UserLogin.t) : M TokenResponse.t :=
  user ← get_user_by_email (UserLogin.email payload);
  match user with
  | None => raise (mkHTTPException 400 "Invalid credentials")
  | Some user =>
      if negb (pwd_verify (UserLogin.password payload)
                 (User.password_hash (body user)))
      then raise (mkHTTPException 400 "Invalid credentials")
      else
        let token := create_access_token
                       (mkClaims (Some (UserLogin.email payload))
                                 (Some (User.role (body user))) None)
                       None in
        mret (TokenResponse.mk token "bearer")
  end.

(** [create_product]: the handler runs after its dependency
    [get_current_user] has produced [current]. *)
Definition create_product (product : Product.t) (token : string)
    : M ObjectId :=
  current ← get_current_user token;
  if bool_decide (CurrentUser.role current ≠ "admin")
  then raise (mkHTTPException 403 "Admin only")
  else
    let prod := Product.mk (Product.title product) (Product.game product)
                  (Product.reward_type product) (Product.description product)
                  (Product.images product) (Product.price_cents product)
                  (Product.currency product) (Product.active product)
                  (Product.tags product) (Some utcnow) (Some utcnow) in
    res ← create_document product_c prod;
    mret res.

End Server.

End Storefront.

Module GameStats.

(** ** Schemas ([src/schemas.py]) *)

Record SearchLog := mkSearchLog {
  game : string;
  query : gmap string string;
  result_ok : bool;
  note : option string }.

(** ** Python strings *)

(** [str.isspace] on the code points below 256. *)
Definition isspace (c : ascii) : bool :=
  let n := N_of_ascii c in
  bool_decide ((9 ≤ n ≤ 13) ∨ (28 ≤ n ≤ 32) ∨ n = 133 ∨ n = 160)%N.

Fixpoint lstrip (s : string) : string :=
  match s with
  | String c s' => if isspace c then lstrip s' else s
  | EmptyString => EmptyString
  end.

Definition rstrip (s : string) : string := String.rev (lstrip (String.rev s)).

(** [s.strip()] *)
Definition strip (s : string) : string := rstrip (lstrip s).

(** [s.split(sep)] for a one-character separator: never empty, one more
    piece than there are separators. *)
Fixpoint split (sep : ascii) (s : string) : list string :=
  match s with
  | EmptyString => [EmptyString]
  | String c s' =>
      if decide (c = sep) then EmptyString :: split sep s'
      else match split sep s' with
           | piece :: pieces => String c piece :: pieces
           | [] => [String c EmptyString]
           end
  end.

Definition digit (c : ascii) : option Z :=
  let n := N_of_ascii c in
  if bool_decide (48 ≤ n ≤ 57)%N then Some (Z.of_N n - 48) else None.

(** The digits of a decimal literal, where single underscores may separate
    digits; [after_digit] tells whether the previous character was one. *)
Fixpoint int_digits (s : string) (after_digit : bool) (acc : Z) : option Z :=
  match s with
  | EmptyString => if after_digit then Some acc else None
  | String c s' =>
      match digit c with
      | Some d => int_digits s' true (10 * acc + d)
      | None =>
          if decide (c = "_"%char) then
            if after_digit then int_digits s' false acc else None
          else None
      end
  end.

(** The white space [int()] skips around a literal, on the code points
    below 256: tab to carriage return, the space and the two Latin-1
    spaces, but not the separators 28 to 31 that [str.strip] removes. *)
Definition int_isspace (c : ascii) : bool :=
  let n := N_of_ascii c in
  bool_decide ((9 ≤ n ≤ 13) ∨ n = 32 ∨ n = 133 ∨ n = 160)%N.

Fixpoint int_lstrip (s : string) : string :=
  match s with
  | String c s' => if int_isspace c then int_lstrip s' else s
  | EmptyString => EmptyString
  end.

Definition int_strip (s : string) : string :=
  String.rev (int_lstrip (String.rev (int_lstrip s))).

(** The number of digit characters of a literal (underscores and other
    characters do not count). *)
Fixpoint count_digits (s : string) : N :=
  match s with
  | EmptyString => 0
  | String c s' =>
      (match digit c with Some _ => 1 | None => 0 end + count_digits s')%N
  end.

(** [sys.int_info.default_max_str_digits]: a literal with more digits is a
    [ValueError]. *)
Definition max_str_digits : N := 4300.

Definition int_literal (digits : string) : option Z :=
  if bool_decide (max_str_digits < count_digits digits)%N then None
  else int_digits digits false 0.

(** [int(s)] for a string: the white space around it is dropped, then an
    optional sign and a decimal literal of at most [max_str_digits]
    digits; [None] is a [ValueError]. *)
Definition int (s : string) : option Z :=
  match int_strip s with
  | String "+" digits => int_literal digits
  | String "-" digits => Z.opp <$> int_literal digits
  | digits => int_literal digits
  end.

(** [s[:n]] *)
Definition truncate (n : nat) (s : string) : string := substring 0 n s.

(** ** Exceptions and the handler monad *)

(** [fastapi.HTTPException] and every other [Exception]; the first is a
    subclass of the second, so [except Exception] catches both. *)
Inductive PyException :=
  | HTTPException (status_code : Z) (detail : string)
  | Exception (message : string).

Inductive Result (A : Type) : Type :=
  | Ok (a : A)
  | Raise (e : PyException).
Arguments Ok {A} a.
Arguments Raise {A} e.

(** The store as this service uses it: the search log, and whether the
    database can be reached. *)
Record Database := mkDatabase {
  searchlog : list SearchLog;
  reachable : bool }.

Definition M (A : Type) : Type := Database → Database * Result A.

Definition ret {A} (a : A) : M A := λ w, (w, Ok a).
Definition raise {A} (e : PyException) : M A := λ w, (w, Raise e).
Definition bind {A B} (m : M A) (k : A → M B) : M B :=
  λ w, match m w with
       | (w', Ok a) => k a w'
       | (w', Raise e) => (w', Raise e)
       end.

#[global] Instance M_ret : MRet M := @ret.
#[global] Instance M_bind : MBind M := λ A B k m, bind m k.

(** [try: m except Exception: pass] *)
Definition try_pass (m : M unit) : M unit :=
  λ w, match m w with
       | (w', Ok _) => (w', Ok ())
       | (w', Raise _) => (w', Ok ())
       end.

(** [try: body except HTTPException: raise except Exception as e: handler] *)
Definition try_except {A} (body : M A) (handler : string → M A) : M A :=
  λ w, match body w with
       | (w', Ok a) => (w', Ok a)
       | (w', Raise (HTTPException c d)) => (w', Raise (HTTPException c d))
       | (w', Raise (Exception message)) => handler message w'
       end.

(** Modelled from the spec: [database.create_document], the store
    adapter's [create(collection, doc) -> id], whose module is not among
    the sources, at the ["searchlog"] collection.  The entry is appended and
    its identifier returned; an unreachable database makes the call raise,
    which is what the handlers guard against. *)
Definition create_document (doc : SearchLog) : M string :=
  λ w, if reachable w
       then (mkDatabase (searchlog w ++ [doc]) (reachable w),
             Ok ("oid" +:+ pretty (length (searchlog w))))
       else (w, Raise (Exception "Database not available")).

(** ** The OSRS hiscore lookup ([get_osrs_stats]) *)

Record OSRSSearch := mkOSRSSearch {
  username : string }.

Record Response := mkResponse {
  status_code : Z;
  text : string }.

Inductive Outcome (A : Type) : Type :=
  | Returned (a : A)
  | Raised (message : string).
Arguments Returned {A} a.
Arguments Raised {A} message.

Record SkillEntry := mkSkillEntry {
  rank : Z;
  level : Z;
  xp : Z }.

Record OsrsStats := mkOsrsStats {
  stats_game : string;
  stats_username : string;
  stats_skills : gmap string SkillEntry }.

Definition skills : list string :=
  ["Overall"; "Attack"; "Defence"; "Strength"; "Hitpoints"; "Ranged";
   "Prayer"; "Magic"; "Cooking"; "Woodcutting"; "Fletching"; "Fishing";
   "Firemaking"; "Crafting"; "Smithing"; "Mining"; "Herblore"; "Agility";
   "Thieving"; "Slayer"; "Farming"; "Runecraft"; "Hunter"; "Construction"].

Definition default_entry : SkillEntry := mkSkillEntry (-1) 1 0.

(** [rank, level, xp = line.split(','); {int(rank), int(level), int(xp)}];
    [None] when unpacking or a conversion raises. *)
Definition skill_line (line : string) : option SkillEntry :=
  match split ","%char line with
  | [rank; level; xp] =>
      rank ← int rank; level ← int level; xp ← int xp;
      Some (mkSkillEntry rank level xp)
  | _ => None
  end.

(** The body of the inner [try]: [lines[i]] may be out of range. *)
Definition parse_line (lines : list string) (i : nat) : option SkillEntry :=
  line ← lines !! i; skill_line line.

(** [for i, skill in enumerate(skills): try: ... except Exception: ...] *)
Definition parse_skills (lines : list string) : gmap string SkillEntry :=
  foldl (λ parsed '(i, skill),
           <[skill := default default_entry (parse_line lines i)]> parsed)
        ∅ (imap pair skills).

Definition hiscore_url : string :=
  "https://secure.runescape.com/m=hiscore_oldschool/index_lite.ws?player=".

Definition username_query (username : string) : gmap string string :=
  {[ "username" := username ]}.

Section Proxy.

(** The hiscore server as [requests.get(url, timeout=10)] sees it. *)
Variable requests_get : string → Outcome Response.

(** [requests.utils.quote] *)
Variable quote : string → string.

(** The text of the [HTTPError] that [raise_for_status] builds. *)
Variable http_error_message : Response → string.

(** [r.raise_for_status()]: statuses 400 to 599 raise. *)
Definition raise_for_status (r : Response) : M unit :=
  if bool_decide (400 ≤ status_code r < 600)
  then raise (Exception (http_error_message r))
  else mret ().

(** [requests.get]: a transport failure is an exception. *)
Definition get (url : string) : M Response :=
  match requests_get url with
  | Returned r => mret r
  | Raised message => raise (Exception message)
  end.

Definition get_osrs_stats (payload : OSRSSearch) : M OsrsStats :=
  let username := strip (username payload) in
  if bool_decide (username = "")
  then raise (HTTPException 400 "Username required")
  else
    let url := hiscore_url +:+ quote username in
    try_except
      (r ← get url;
       if bool_decide (status_code r = 404)
       then raise (HTTPException 404 "Player not found")
       else
         _ ← raise_for_status r;
         let lines := split "010"%char (strip (text r)) in
         let parsed := parse_skills lines in
         _ ← try_pass
               (_ ← create_document
                      (mkSearchLog "osrs" (username_query username) true None);
                mret ());
         mret (mkOsrsStats "osrs" username parsed))
      (λ e,
         _ ← try_pass
               (_ ← create_document
                      (mkSearchLog "osrs" (username_query username) false
                         (Some (truncate 200 e)));
                mret ());
         raise (HTTPException 500 "Failed to fetch OSRS stats")).

End Proxy.

End GameStats.

(** * Vocabulary of the storefront's properties *)

Module StorefrontTerms.
Import Storefront.

(** [x] is the first element of [l] that satisfies [P]: the document a
    [limit=1] query for [P] is about. *)
Definition first_match {A} (P : A → Prop) (l : list A) (x : A) : Prop :=
  ∃ before after, l = before ++ x :: after ∧ P x ∧ Forall (λ y, ¬ P y) before.

(** The unassigned codes of a product, in store order. *)
Definition stock (w : World) (product_id : string) : list (Doc CodeKey.t) :=
  filter (unassigned_of product_id) (codekey (db w)).

(** A line item has sufficient unassigned inventory. *)
Definition sufficient (w : World) (item : CartItem.t) : Prop :=
  CartItem.quantity item ≤ Z.of_nat (length (stock w (CartItem.product_id item))).

#[global] Instance sufficient_dec w item : Decision (sufficient w item).
Proof. unfold sufficient. apply _. Defined.

(** The code strings a line item is served with: those of the first
    [quantity] unassigned codes of its product. *)
Definition codes_for (w : World) (item : CartItem.t) : list string :=
  (CodeKey.code ∘ body) <$>
    take (Z.to_nat (CartItem.quantity item)) (stock w (CartItem.product_id item)).

Definition allocation (w : World) (items : list CartItem.t) : list string :=
  items ≫= codes_for w.

Definition insufficient_stock : HTTPException :=
  mkHTTPException 409 "Insufficient stock for a product".

(** The number of units an order asks for. *)
Definition requested (items : list CartItem.t) : Z :=
  foldr (λ item total, CartItem.quantity item + total) 0 items.

(** The order stored under an identifier. *)
Definition placed (w : World) (order_id : string) (o : Doc Order.t) : Prop :=
  first_match (by_oid order_id) (order (db w)) o.

(** ** A small shop, for the examples

    Two products, three unassigned codes, four pending orders and two
    users. *)

Definition sample_product (title : string) (price_cents : Z) : Product.t :=
  Product.mk title "Fortnite" "skin" "" [] price_cents "usd" true [] None None.

Definition sample_code (product_id code : string) : CodeKey.t :=
  CodeKey.mk product_id code false None None None.

Definition sample_order (items : list CartItem.t) (total : Z) : Order.t :=
  Order.mk None "ann@example.com" None items total total "usd" None
    "pending" [] None None.

Definition sample_user (email password_hash role : string) : User.t :=
  User.mk email None password_hash role None None.

Definition shop_db : Database :=
  mkDatabase
    [mkDoc "p1" (sample_product "Renegade" 1999);
     mkDoc "p2" (sample_product "Glider" 500)]
    [mkDoc "k1" (sample_code "p1" "AAAA");
     mkDoc "k2" (sample_code "p1" "BBBB");
     mkDoc "k3" (sample_code "p2" "CCCC")]
    [mkDoc "o1" (sample_order [CartItem.mk "p1" 1] 1999);
     mkDoc "o2" (sample_order [CartItem.mk "p1" 1] 1999);
     mkDoc "o3" (sample_order [CartItem.mk "p1" 1; CartItem.mk "p1" 1] 3998);
     mkDoc "o4" (sample_order [CartItem.mk "p1" 2; CartItem.mk "p2" 2] 4998)]
    [mkDoc "u1" (sample_user "ann@example.com" "hash-of-secret" "user");
     mkDoc "u2" (sample_user "root@example.com" "hash-of-hunter2" "admin")]
    10.

Definition shop : World := mkWorld shop_db [].

Definition confirm (order_id : string) : CheckoutConfirmRequest.t :=
  CheckoutConfirmRequest.mk order_id "stripe".

(** *** Carts *)

(** The product the catalogue holds under a line item's [product_id]. *)
Definition listed (w : World) (item : CartItem.t) (p : Doc Product.t) : Prop :=
  first_match (by_oid (CartItem.product_id item)) (product (db w)) p.

(** The sum over the lines of [price_cents] times [quantity]. *)
Definition cart_total (items : list CartItem.t)
    (products : list (Doc Product.t)) : Z :=
  foldr Z.add 0
    (zip_with (λ item p, Product.price_cents (body p) * CartItem.quantity item)
       items products).

(** The currency of the last product looked up, ["usd"] for an empty cart. *)
Definition cart_currency (products : list (Doc Product.t)) : string :=
  default "usd" (Product.currency ∘ body <$> last products).

(** The identifier the store gives to the next document. *)
Definition next_id (w : World) : ObjectId := oid_of_nat (next_oid (db w)).

(** The store once an order has been added to it. *)
Definition with_order (w : World) (o : Order.t) : Database :=
  mkDatabase (product (db w)) (codekey (db w))
    (order (db w) ++ [mkDoc (next_id w) o]) (user (db w))
    (S (next_oid (db w))).

(** The payment-intent request failed: it raised, or the response is not
    [ok]. *)
Definition payment_failed (outcome : Outcome Response) : Prop :=
  match outcome with
  | Returned r => ok r = false
  | Raised _ => True
  end.

(** A provider that is down, one that refuses, and one that answers. *)
Definition provider_down : string → Z → string → string → Outcome Response :=
  λ _ _ _ _, Raised "connection timed out".
Definition provider_refuses : string → Z → string → string → Outcome Response :=
  λ _ _ _ _, Returned (mkResponse false (Some {[ "error" := "card_declined" ]})).
Definition provider_answers : string → Z → string → string → Outcome Response :=
  λ _ _ _ _, Returned (mkResponse true (Some {[ "client_secret" := "pi_1_secret" ]})).

Definition cart : OrderCreate.t :=
  OrderCreate.mk [CartItem.mk "p1" 2; CartItem.mk "p2" 1] "ann@example.com"
    (Some "Ann").

(** *** Users and tokens *)

(** The user document registered under an email address. *)
Definition registered (w : World) (email : string) (u : Doc User.t) : Prop :=
  first_match (by_email email) (user (db w)) u.

(** No user document carries the email address. *)
Definition unknown (w : World) (email : string) : Prop :=
  Forall (λ d, ¬ by_email email d) (user (db w)).

(** Two user documents that agree on everything except, possibly, the
    stored [role]. *)
Definition same_but_role (d1 d2 : Doc User.t) : Prop :=
  _id d1 = _id d2 ∧
  User.email (body d1) = User.email (body d2) ∧
  User.name (body d1) = User.name (body d2) ∧
  User.password_hash (body d1) = User.password_hash (body d2) ∧
  User.created_at (body d1) = User.created_at (body d2) ∧
  User.updated_at (body d1) = User.updated_at (body d2).

Definition invalid_credentials : HTTPException :=
  mkHTTPException 400 "Invalid credentials".

Definition admin_only : HTTPException := mkHTTPException 403 "Admin only".

(** A toy password scheme and a toy token codec for the examples: the
    hash of [p] is ["hash-of-" ++ p], and a token spells out its subject
    and role. *)
Definition toy_verify (password password_hash : string) : bool :=
  bool_decide ("hash-of-" +:+ password = password_hash).

Definition toy_encode (claims : Claims) (key alg : string) : string :=
  default "" (sub claims) +:+ "/" +:+ default "" (role claims).

Definition toy_decode (token key : string) (algs : list string)
    : option Claims :=
  if bool_decide (token = "ann@example.com/admin")
  then Some (mkClaims (Some "ann@example.com") (Some "admin") (Some 1700043200))
  else if bool_decide (token = "ann@example.com")
  then Some (mkClaims (Some "ann@example.com") None (Some 1700043200))
  else None.

(** [shop] with the stored roles of its two users exchanged. *)
Definition shop_roles_swapped : World :=
  mkWorld
    (mkDatabase (product shop_db) (codekey shop_db) (order shop_db)
       [mkDoc "u1" (sample_user "ann@example.com" "hash-of-secret" "admin");
        mkDoc "u2" (sample_user "root@example.com" "hash-of-hunter2" "user")]
       10)
    [].

End StorefrontTerms.

(** * Vocabulary of the game-stat proxy's properties *)

Module GameStatsTerms.
Import GameStats.

(** A hiscore line that is not three comma-separated integers. *)
Definition malformed (line : string) : Prop := skill_line line = None.

(** The search-log entry of an OSRS lookup. *)
Definition osrs_entry (username : string) (ok : bool) (note : option string)
    : SearchLog :=
  mkSearchLog "osrs" (username_query username) ok note.

(** The upstream answered with an error status. *)
Definition error_status (r : Response) : Prop := 400 ≤ status_code r < 600.

#[global] Instance error_status_dec r : Decision (error_status r).
Proof. unfold error_status. apply _. Defined.

Definition failed_to_fetch : PyException :=
  HTTPException 500 "Failed to fetch OSRS stats".

Definition player_not_found : PyException :=
  HTTPException 404 "Player not found".

(** Sample upstreams: one that serves a fixed page under any URL, one that
    cannot be reached. *)
Definition serves (status_code : Z) (text : string) : string → Outcome Response :=
  λ _, Returned (mkResponse status_code text).

Definition unreachable : string → Outcome Response :=
  λ _, Raised "connection timed out".

Definition error_text (r : Response) : string := "upstream error".

(** A hiscore page whose third line is garbage. *)
Definition hiscores : string :=
  "120,2277,460000000
350,99,13034431
not,a,number
410,99,15000000
".

Definition empty_log : Database := mkDatabase [] true.

(** The store after a best-effort attempt to append a search-log entry. *)
Definition logged (w : Database) (entry : SearchLog) : Database :=
  if reachable w then mkDatabase (searchlog w ++ [entry]) (reachable w) else w.

(** The lines of a hiscore page, as [get_osrs_stats] cuts them. *)
Definition page_lines (r : Response) : list string :=
  split "010"%char (strip (text r)).

(** One turn of a loop that stores [g i] under the [i]-th key. *)
Definition fill {V} (g : nat → V) (parsed : gmap string V)
    (entry : nat * string) : gmap string V :=
  let '(i, key) := entry in <[key := g i]> parsed.

End GameStatsTerms.

(** * The other handlers of the storefront ([src/backend/main.py]) *)

Module StorefrontRest.
Import Storefront.

(** ** Schemas ([src/backend/schemas.py]) *)

Module UserRegister.
Record t := mk {
  email : string;
  password : string;
  name : option string }.
End UserRegister.

Module ProductUpdate.
Record t := mk {
  title : option string;
  game : option string;
  reward_type : option string;
  description : option string;
  images : option (list string);
  price_cents : option Z;
  currency : option string;
  active : option bool;
  tags : option (list string) }.
End ProductUpdate.

Module AdminAddCodes.
Record t := mk {
  product_id : string;
  codes : list string }.
End AdminAddCodes.

(** ** Product queries ([list_products])

    The filter dictionary [q] is built key by key; it is kept as the list
    of its conditions, and a product matches when it meets each one. *)

Inductive Condition :=
  | Active (b : bool)
  | Game (game : string)
  | RewardType (reward_type : string)
  | PriceCents (gte lte : option Z).

Definition meets (d : Doc Product.t) (c : Condition) : bool :=
  match c with
  | Active b => bool_decide (Product.active (body d) = b)
  | Game game => bool_decide (Product.game (body d) = game)
  | RewardType reward_type =>
      bool_decide (Product.reward_type (body d) = reward_type)
  | PriceCents gte lte =>
      match gte with
      | Some low => bool_decide (low ≤ Product.price_cents (body d))
      | None => true
      end &&
      match lte with
      | Some high => bool_decide (Product.price_cents (body d) ≤ high)
      | None => true
      end
  end.

Definition matches (q : list Condition) (d : Doc Product.t) : Prop :=
  forallb (meets d) q = true.
#[global] Instance matches_dec q d : Decision (matches q d).
Proof. unfold matches. apply _. Defined.

(** Truth of an optional string: present and not empty. *)
Definition truthy (s : option string) : option string :=
  match s with
  | Some v => if bool_decide (v = EmptyString) then None else Some v
  | None => None
  end.

(** [q = {"active": True}; if game: ...; if reward_type: ...;
    if min_price is not None or max_price is not None: ...] *)
Definition product_query (game reward_type : option string)
    (min_price max_price : option Z) : list Condition :=
  [Active true]
  ++ match truthy game with Some g => [Game g] | None => [] end
  ++ match truthy reward_type with Some t => [RewardType t] | None => [] end
  ++ match min_price, max_price with
     | None, None => []
     | _, _ => [PriceCents min_price max_price]
     end.

(** The handlers return each document with its [_id] renamed to [id], as a
    string; a [Doc] carries that string already. *)
Definition list_products (game reward_type : option string)
    (min_price max_price : option Z) : M (list (Doc Product.t)) :=
  let q := product_query game reward_type min_price max_price in
  docs ← get_documents product_c (matches q) 100;
  mret docs.

Definition get_product (product_id : string) : M (Doc Product.t) :=
  docs ← get_documents product_c (by_oid product_id) 1;
  match docs with
  | [] => raise (mkHTTPException 404 "Product not found")
  | d :: _ => mret d
  end.

(** The filters [{"email": email}] and [{}] on orders. *)
Definition order_of (email : string) (d : Doc Order.t) : Prop :=
  Order.email (body d) = email.
#[global] Instance order_of_dec e d : Decision (order_of e d).
Proof. unfold order_of. apply _. Defined.

Definition any_doc {A} (d : Doc A) : Prop := True.
#[global] Instance any_doc_dec {A} (d : Doc A) : Decision (any_doc d).
Proof. unfold any_doc. apply _. Defined.

Section Server.

Variable JWT_SECRET : string.
Variable utcnow : Z.
Variable jwt_encode : Claims → string → string → string.
Variable jwt_decode : string → string → list string → option Claims.

(** [pwd_context.hash(password)], the salted hash made for this request. *)
Variable pwd_hash : string → string.

Definition register (payload : UserRegister.t) : M TokenResponse.t :=
  existing ← get_user_by_email (UserRegister.email payload);
  match existing with
  | Some _ => raise (mkHTTPException 400 "Email already registered")
  | None =>
      let password_hash := pwd_hash (UserRegister.password payload) in
      let user := User.mk (UserRegister.email payload)
                    (UserRegister.name payload) password_hash "user"
                    (Some utcnow) (Some utcnow) in
      inserted ← create_document user_c user;
      let token := create_access_token JWT_SECRET utcnow jwt_encode
                     (mkClaims (Some (UserRegister.email payload))
                               (Some "user") None)
                     None in
      mret (TokenResponse.mk token "bearer")
  end.

Definition update_product (product_id : string) (payload : ProductUpdate.t)
    (token : string) : M unit :=
  current ← get_current_user JWT_SECRET jwt_decode token;
  if bool_decide (CurrentUser.role current ≠ "admin")
  then raise (mkHTTPException 403 "Admin only")
  else raise (mkHTTPException 501 "Update not implemented in this environment").

(** [for code in payload.codes: ...], over the codes still to insert. *)
Fixpoint insert_codes (product_id : string) (codes : list string)
    (inserted : list string) : M (list string) :=
  match codes with
  | [] => mret inserted
  | code :: codes' =>
      let ck := CodeKey.mk product_id code false None
                  (Some utcnow) (Some utcnow) in
      res ← create_document codekey_c ck;
      insert_codes product_id codes' (inserted ++ [res])
  end.

Definition add_codes (payload : AdminAddCodes.t) (token : string)
    : M (list string) :=
  current ← get_current_user JWT_SECRET jwt_decode token;
  if bool_decide (CurrentUser.role current ≠ "admin")
  then raise (mkHTTPException 403 "Admin only")
  else
    inserted ← insert_codes (AdminAddCodes.product_id payload)
                 (AdminAddCodes.codes payload) [];
    mret inserted.

Definition list_orders (token : string) : M (list (Doc Order.t)) :=
  current ← get_current_user JWT_SECRET jwt_decode token;
  docs ← (if bool_decide (CurrentUser.role current ≠ "admin")
          then get_documents order_c (order_of (CurrentUser.email current)) 50
          else get_documents order_c any_doc 50);
  mret docs.

End Server.

End StorefrontRest.

(** * The character search of the game-stat proxy ([src/main.py]) *)

Module GameStatsRest.
Import GameStats.

(** ** JSON values, as [r.json()] returns them

    Numbers are integers here; an object is the list of its items, keys
    distinct. *)
#[warnings="-register-all"] Inductive JSON :=
  | JNull
  | JBool (b : bool)
  | JNumber (n : Z)
  | JString (s : string)
  | JArray (items : list JSON)
  | JObject (items : list (string * JSON)).

(** [type(v).__name__] *)
Definition type_name (v : JSON) : string :=
  match v with
  | JNull => "NoneType"
  | JBool _ => "bool"
  | JNumber _ => "int"
  | JString _ => "str"
  | JArray _ => "list"
  | JObject _ => "dict"
  end.

Fixpoint assoc (key : string) (items : list (string * JSON)) : option JSON :=
  match items with
  | [] => None
  | (k, v) :: items' => if decide (k = key) then Some v else assoc key items'
  end.

(** [v.get(key, default)]: only a dict has [get]. *)
Definition dict_get (v : JSON) (key : string) (default_value : JSON) : M JSON :=
  match v with
  | JObject items => mret (default default_value (assoc key items))
  | _ => raise (Exception
                  ("'" +:+ type_name v +:+ "' object has no attribute 'get'"))
  end.

(** [for it in v]: a list gives its elements, a dict its keys, a string
    its characters; nothing else can be iterated. *)
Definition iterate (v : JSON) : M (list JSON) :=
  match v with
  | JArray items => mret items
  | JObject items => mret ((JString ∘ fst) <$> items)
  | JString s =>
      mret ((λ c, JString (String c EmptyString)) <$> list_ascii_of_string s)
  | _ => raise (Exception ("'" +:+ type_name v +:+ "' object is not iterable"))
  end.

(** [str(e)] *)
Definition str_exception (e : PyException) : string :=
  match e with
  | HTTPException status_code detail => pretty status_code +:+ ": " +:+ detail
  | Exception message => message
  end.

(** [try: body except Exception as e: handler] *)
Definition try_except_any {A} (body : M A) (handler : string → M A) : M A :=
  λ w, match body w with
       | (w', Ok a) => (w', Ok a)
       | (w', Raise e) => handler (str_exception e) w'
       end.

Record FFXIVSearch := mkFFXIVSearch {
  name : string;
  world : option string }.

Record Character := mkCharacter {
  character_id : JSON;
  character_name : JSON;
  character_server : JSON;
  character_avatar : JSON;
  character_data_center : JSON }.

Record FfxivResults := mkFfxivResults {
  ffxiv_game : string;
  ffxiv_results : list Character }.

(** One element of the comprehension: the five fields of [it]. *)
Definition trim (it : JSON) : M Character :=
  id ← dict_get it "ID" JNull;
  name ← dict_get it "Name" JNull;
  server ← dict_get it "Server" JNull;
  avatar ← dict_get it "Avatar" JNull;
  data_center ← dict_get it "DC" JNull;
  mret (mkCharacter id name server avatar data_center).

(** [[trim(it) for it in results]], over the elements still to visit. *)
Fixpoint trim_all (results : list JSON) : M (list Character) :=
  match results with
  | [] => mret []
  | it :: results' =>
      c ← trim it;
      cs ← trim_all results';
      mret (c :: cs)
  end.

Definition character_search_url : string := "https://xivapi.com/character/search".

(** [params = {"name": name}; if world: params["server"] = world] *)
Definition search_params (name world : string) : gmap string string :=
  if bool_decide (world = EmptyString) then {[ "name" := name ]}
  else <[ "server" := world ]> {[ "name" := name ]}.

Section Lodestone.

(** The search service as [requests.get(url, params=params, timeout=10)]
    sees it. *)
Variable requests_get : string → gmap string string → Outcome Response.

(** The text of the [HTTPError] that [raise_for_status] builds. *)
Variable http_error_message : Response → string.

(** [r.json()] on the body of a response. *)
Variable json_loads : string → Outcome JSON.

Definition search_ffxiv_character (payload : FFXIVSearch) : M FfxivResults :=
  let name := strip (name payload) in
  let world := strip (default EmptyString (world payload)) in
  if bool_decide (name = EmptyString)
  then raise (HTTPException 400 "Name required")
  else
    let params := search_params name world in
    try_except_any
      (r ← match requests_get character_search_url params with
           | Returned r => mret r
           | Raised message => raise (Exception message)
           end;
       _ ← raise_for_status http_error_message r;
       data ← match json_loads (text r) with
              | Returned v => mret v
              | Raised message => raise (Exception message)
              end;
       results ← dict_get data "Results" (JArray []);
       _ ← try_pass
             (_ ← create_document (mkSearchLog "ffxiv" params true None);
              mret ());
       items ← iterate results;
       trimmed ← trim_all items;
       mret (mkFfxivResults "ffxiv" (take 10 trimmed)))
      (λ e,
         _ ← try_pass
               (_ ← create_document
                      (mkSearchLog "ffxiv" params false (Some (truncate 200 e)));
                mret ());
         raise (HTTPException 500 "Failed to search FFXIV characters")).

End Lodestone.

End GameStatsRest.

(** * Vocabulary of the properties of the other storefront handlers *)

Module StorefrontRestTerms.
Import Storefront StorefrontTerms StorefrontRest.

(** No product is stored under a line item's [product_id]. *)
Definition unlisted (w : World) (item : CartItem.t) : Prop :=
  Forall (λ d, ¬ by_oid (CartItem.product_id item) d) (product (db w)).

(** The email addresses of the stored users, in store order. *)
Definition emails (w : World) : list string :=
  (User.email ∘ body) <$> user (db w).

(** The user document [register] writes. *)
Definition new_user (now : Z) (hash : string → string)
    (payload : UserRegister.t) : User.t :=
  User.mk (UserRegister.email payload) (UserRegister.name payload)
    (hash (UserRegister.password payload)) "user" (Some now) (Some now).

(** The claims of a token issued to [email] with [role] at time [now]. *)
Definition issued (now : Z) (email role : string) : Claims :=
  mkClaims (Some email) (Some role) (Some (now + 12 * 3600)).

Definition email_taken : HTTPException :=
  mkHTTPException 400 "Email already registered".

Definition not_implemented : HTTPException :=
  mkHTTPException 501 "Update not implemented in this environment".

Definition product_not_found : HTTPException :=
  mkHTTPException 404 "Product not found".

(** The CodeKey documents [add_codes] writes for [codes], the first of
    them under the [first]-th identifier. *)
Fixpoint new_codes (now : Z) (product_id : string) (first : nat)
    (codes : list string) : list (Doc CodeKey.t) :=
  match codes with
  | [] => []
  | code :: codes' =>
      mkDoc (oid_of_nat first)
        (CodeKey.mk product_id code false None (Some now) (Some now))
      :: new_codes now product_id (S first) codes'
  end.

(** The answer to a request that carries no admin token. *)
Definition refusal (e : HTTPException) : Prop :=
  e = credentials_exception ∨ e = admin_only.

Definition no_patch : ProductUpdate.t :=
  ProductUpdate.mk None None None None None None None None None.

(** What a catalogue search asks for: an active product, of the game and
    reward type when these are given and not empty, within the price
    bounds that are given. *)
Definition wanted (game reward_type : option string)
    (min_price max_price : option Z) (d : Doc Product.t) : Prop :=
  Product.active (body d) = true ∧
  (∀ g, game = Some g → g ≠ EmptyString → Product.game (body d) = g) ∧
  (∀ t, reward_type = Some t → t ≠ EmptyString →
        Product.reward_type (body d) = t) ∧
  (∀ low, min_price = Some low → low ≤ Product.price_cents (body d)) ∧
  (∀ high, max_price = Some high → Product.price_cents (body d) ≤ high).

(** A toy password hash matching [toy_verify], and a codec that knows one
    token. *)
Definition toy_hash (password : string) : string := "hash-of-" +:+ password.

Definition one_token (claims : Claims) (token key : string)
    (algs : list string) : option Claims :=
  if bool_decide (token = "t0k3n") then Some claims else None.

Definition encode_one (claims : Claims) (key alg : string) : string := "t0k3n".

Definition bob : UserRegister.t :=
  UserRegister.mk "bob@example.com" "pw" (Some "Bob").

(** [shop] with a retired product added. *)
Definition shop_with_retired : World :=
  mkWorld
    (mkDatabase
       (product shop_db ++
          [mkDoc "p3" (Product.mk "Old skin" "Roblox" "skin" EmptyString []
                         300 "usd" false [] None None)])
       (codekey shop_db) (order shop_db) (user shop_db) 10)
    [].

End StorefrontRestTerms.

(** * Vocabulary of the properties of the character search *)

Module GameStatsRestTerms.
Import GameStats GameStatsTerms GameStatsRest.

(** The search-log entry of a character search. *)
Definition ffxiv_entry (params : gmap string string) (ok : bool)
    (note : option string) : SearchLog :=
  mkSearchLog "ffxiv" params ok note.

Definition search_failed : PyException :=
  HTTPException 500 "Failed to search FFXIV characters".

(** The five fields kept of a search result, absent ones as [null]. *)
Definition character_of (fields : list (string * JSON)) : Character :=
  mkCharacter (default JNull (assoc "ID" fields))
    (default JNull (assoc "Name" fields))
    (default JNull (assoc "Server" fields))
    (default JNull (assoc "Avatar" fields))
    (default JNull (assoc "DC" fields)).

Definition is_object (v : JSON) : Prop :=
  match v with JObject _ => True | _ => False end.

(** What the handler reports of a value it cannot call [get] on. *)
Definition no_get (v : JSON) : string :=
  "'" +:+ type_name v +:+ "' object has no attribute 'get'".

(** A character of the sample search results. *)
Definition hero (n : Z) : list (string * JSON) :=
  [("ID", JNumber n); ("Name", JString "Hero"); ("Server", JString "Odin");
   ("Lang", JString "en")].

Definition twelve_heroes : list (list (string * JSON)) :=
  hero <$> [1; 2; 3; 4; 5; 6; 7; 8; 9; 10; 11; 12].

Definition lodestone (v : JSON) : string → gmap string string → Outcome Response :=
  λ _ _, Returned (mkResponse 200 "{}").

Definition decodes_to (v : JSON) : string → Outcome JSON := λ _, Returned v.

(** A character that is a digit or a minus sign, and a string made of
    such characters. *)
Definition plain_char (c : ascii) : bool :=
  match digit c with
  | Some _ => true
  | None => bool_decide (c = "-"%char)
  end.

Fixpoint plain (s : string) : bool :=
  match s with
  | EmptyString => true
  | String c s' => plain_char c && plain s'
  end.

(** The least number with more digits than [int()] accepts. *)
Definition int_bound : Z := 10 ^ Z.of_N max_str_digits.

(** A hiscore line as the feed writes it: three decimal integers separated
    by commas. *)
Definition hiscore_line (rank level xp : Z) : string :=
  pretty rank +:+ "," +:+ pretty level +:+ "," +:+ pretty xp.

End GameStatsRestTerms.

(** * Properties of the storefront *)

Module StorefrontSpec.
Import Storefront StorefrontTerms.

(** ** Reading the store *)

Lemma filter_none {A} (P : A → Prop) `{∀ x, Decision (P x)} (l : list A) :
  Forall (λ y, ¬ P y) l → filter P l = [].
Proof.
  induction 1 as [|y l Hy _ IH]; [done|].
  by rewrite filter_cons_False.
Qed.

Lemma filter_first_match {A} (P : A → Prop) `{∀ x, Decision (P x)} l x :
  first_match P l x → ∃ rest, filter P l = x :: rest.
Proof.
  intros (before & after & -> & HP & Hbefore).
  exists (filter P after).
  by rewrite filter_app, (filter_none P before), filter_cons_True.
Qed.

Ltac run :=
  unfold find_available_codes, get_documents, mbind, mret, M_bind, M_ret,
    bind, ret, raise; simpl.

Lemma get_documents_first {A} (c : Collection A) (P : Doc A → Prop)
    `{∀ d, Decision (P d)} w d :
  first_match P (coll_docs c (db w)) d →
  get_documents c P 1 w = (w, Ok [d]).
Proof.
  intros Hfirst.
  destruct (filter_first_match P _ _ Hfirst) as [rest Hrest].
  unfold get_documents. by rewrite Hrest.
Qed.

Lemma get_documents_none {A} (c : Collection A) (P : Doc A → Prop)
    `{∀ d, Decision (P d)} limit w :
  Forall (λ d, ¬ P d) (coll_docs c (db w)) →
  get_documents c P limit w = (w, Ok []).
Proof.
  intros Hnone. unfold get_documents.
  by rewrite (filter_none P _ Hnone), take_nil.
Qed.

(** ** Code allocation *)

Lemma append_codes_seq available k n allocated_codes w :
  (k + n ≤ length available)%nat →
  append_codes available (seq k n) allocated_codes w =
    (w, Ok (allocated_codes ++
            ((CodeKey.code ∘ body) <$> take n (drop k available)))).
Proof.
  revert k allocated_codes.
  induction n as [|n IH]; intros k acc Hlen; simpl.
  - by rewrite app_nil_r.
  - destruct (lookup_lt_is_Some_2 available k) as [x Hx]; [lia|].
    rewrite Hx, IH by lia.
    rewrite (drop_S _ _ _ Hx). simpl.
    by rewrite <- app_assoc.
Qed.

Lemma allocate_spec items allocated_codes w :
  allocate items allocated_codes w =
    (w, if decide (Forall (sufficient w) items)
        then Ok (allocated_codes ++ allocation w items)
        else Raise insufficient_stock).
Proof.
  revert allocated_codes.
  induction items as [|item items IH]; intros acc.
  - rewrite decide_True by constructor.
    unfold allocation; simpl. by rewrite app_nil_r.
  - simpl. run. fold (stock w (CartItem.product_id item)).
    set (F := stock w (CartItem.product_id item)).
    case_bool_decide as Hshort.
    + rewrite decide_False; [done|].
      intros Hall. apply Forall_cons_1 in Hall as [Hitem _].
      unfold sufficient in Hitem. fold F in Hitem.
      rewrite length_take in Hshort. lia.
    + assert (sufficient w item) as Hitem.
      { unfold sufficient. fold F. rewrite length_take in Hshort. lia. }
      rewrite (append_codes_seq _ 0) by (rewrite length_take in *; lia).
      rewrite drop_0, take_take, Nat.min_id, IH.
      destruct (decide (Forall (sufficient w) items)) as [Hrest|Hrest].
      * rewrite decide_True by (by constructor).
        unfold allocation. simpl. by rewrite <- app_assoc.
      * rewrite decide_False; [done|].
        intros Hall. by apply Forall_cons_1 in Hall as [_ ?].
Qed.

(** [checkout_confirm] on every path: the order is missing, or some item is
    short of stock, or the codes are returned; the world is the one it
    started from. *)
Lemma checkout_confirm_spec payload w :
  checkout_confirm payload w =
    (w, match filter (by_oid (CheckoutConfirmRequest.order_id payload))
                (order (db w)) with
        | [] => Raise (mkHTTPException 404 "Order not found")
        | o :: _ =>
            if decide (Forall (sufficient w) (Order.items (body o)))
            then Ok (CheckoutConfirmResponse.mk
                       (CheckoutConfirmRequest.order_id payload)
                       (allocation w (Order.items (body o))))
            else Raise insufficient_stock
        end).
Proof.
  unfold checkout_confirm. run.
  destruct (filter _ (order (db w))) as [|o rest]; simpl; [done|].
  rewrite allocate_spec. by case_decide.
Qed.

Lemma length_allocation w items :
  Forall (sufficient w) items →
  Forall CartItem.valid items →
  Z.of_nat (length (allocation w items)) = requested items.
Proof.
  unfold allocation.
  induction 1 as [|item items Hitem _ IH]; intros Hvalid; [done|].
  apply Forall_cons_1 in Hvalid as [Hq Hvalid].
  change (requested (item :: items))
    with (CartItem.quantity item + requested items).
  rewrite bind_cons, length_app, Nat2Z.inj_add, IH by done.
  unfold codes_for. rewrite length_fmap, length_take.
  unfold sufficient in Hitem. unfold CartItem.valid in Hq. lia.
Qed.

Lemma filter_placed w order_id o :
  placed w order_id o →
  ∃ rest, filter (by_oid order_id) (order (db w)) = o :: rest.
Proof. apply filter_first_match. Qed.

Lemma allocation_from_stock w items :
  Forall (λ c, ∃ d, d ∈ codekey (db w) ∧ CodeKey.code (body d) = c
                    ∧ CodeKey.assigned (body d) = false)
         (allocation w items).
Proof.
  apply Forall_forall. intros c Hc.
  apply list_elem_of_bind in Hc as (item & Hc & _).
  apply list_elem_of_fmap in Hc as (d & -> & Hd).
  apply subseteq_take, list_elem_of_filter in Hd as [[_ Hfree] Hd].
  by exists d.
Qed.

(** ** The claims about [checkout_confirm] *)

(** C4: [checkout_confirm] only reads the document store.  On every path
    (codes returned, order not found, insufficient stock) the world after
    the call, store and recorded effects, is the world before it: no
    CodeKey or Order document is created or modified. *)
Theorem checkout_confirm_reads_only payload w :
  (checkout_confirm payload w).1 = w.
Proof. by rewrite checkout_confirm_spec. Qed.

(** C1, as the code has it: for an order whose every line item has
    sufficient unassigned inventory, [checkout_confirm] returns exactly one
    code per requested unit, namely for each line item in turn the codes
    of the first [quantity] unassigned CodeKeys of its product.  The codes
    are not reserved: the store is left as it was, and any order with the
    same line items is answered with the very same codes. *)
Theorem confirm_one_code_per_unit payload w o :
  placed w (CheckoutConfirmRequest.order_id payload) o →
  Forall (sufficient w) (Order.items (body o)) →
  Forall CartItem.valid (Order.items (body o)) →
  ∃ codes,
    checkout_confirm payload w =
      (w, Ok (CheckoutConfirmResponse.mk
                (CheckoutConfirmRequest.order_id payload) codes)) ∧
    Z.of_nat (length codes) = requested (Order.items (body o)) ∧
    codes = allocation w (Order.items (body o)) ∧
    ∀ payload' o',
      placed w (CheckoutConfirmRequest.order_id payload') o' →
      Order.items (body o') = Order.items (body o) →
      checkout_confirm payload' w =
        (w, Ok (CheckoutConfirmResponse.mk
                  (CheckoutConfirmRequest.order_id payload') codes)).
Proof.
  intros Hplaced Hstock Hvalid.
  exists (allocation w (Order.items (body o))).
  split_and!; [| by apply length_allocation | done |].
  - rewrite checkout_confirm_spec.
    destruct (filter_placed _ _ _ Hplaced) as [rest ->].
    by rewrite decide_True.
  - intros payload' o' Hplaced' Hitems.
    rewrite checkout_confirm_spec.
    destruct (filter_placed _ _ _ Hplaced') as [rest ->].
    rewrite Hitems. by rewrite decide_True.
Qed.

Lemma confirm_one_code_per_unit_witness :
  ∃ codes,
    checkout_confirm (confirm "o4")
      (mkWorld (mkDatabase (product shop_db)
                  (codekey shop_db ++ [mkDoc "k4" (sample_code "p2" "DDDD")])
                  (order shop_db) (user shop_db) 11) []) =
      (mkWorld (mkDatabase (product shop_db)
                  (codekey shop_db ++ [mkDoc "k4" (sample_code "p2" "DDDD")])
                  (order shop_db) (user shop_db) 11) [],
       Ok (CheckoutConfirmResponse.mk "o4" codes)) ∧
    Z.of_nat (length codes) = 4 ∧
    codes = ["AAAA"; "BBBB"; "CCCC"; "DDDD"].
Proof.
  set (w := mkWorld _ _).
  destruct (confirm_one_code_per_unit (confirm "o4") w
              (mkDoc "o4" (sample_order
                 [CartItem.mk "p1" 2; CartItem.mk "p2" 2] 4998)))
    as (codes & Hrun & Hlen & Hcodes & _).
  - exists (take 3 (order shop_db)), [].
    split; [reflexivity|]. split; [reflexivity|].
    repeat constructor; by vm_compute.
  - repeat constructor; by vm_compute.
  - repeat constructor; by vm_compute.
  - exists codes. split; [exact Hrun|]. split; [exact Hlen|].
    rewrite Hcodes. reflexivity.
Defined.

(** C1 fails as stated: in [shop] the orders [o1] and [o2] both have
    sufficient stock and both are handed the code ["AAAA"], and order [o3],
    with two lines for the same product, gets ["AAAA"] twice. *)
Lemma confirm_hands_same_code_twice :
  Forall (sufficient shop) [CartItem.mk "p1" 1] ∧
  Forall (sufficient shop) [CartItem.mk "p1" 1; CartItem.mk "p1" 1] ∧
  checkout_confirm (confirm "o1") shop =
    (shop, Ok (CheckoutConfirmResponse.mk "o1" ["AAAA"])) ∧
  checkout_confirm (confirm "o2") shop =
    (shop, Ok (CheckoutConfirmResponse.mk "o2" ["AAAA"])) ∧
  checkout_confirm (confirm "o3") shop =
    (shop, Ok (CheckoutConfirmResponse.mk "o3" ["AAAA"; "AAAA"])).
Proof.
  split_and!; [repeat constructor; by vm_compute ..| | |]; reflexivity.
Qed.

(** C2, as the code has it: when [checkout_confirm] succeeds the store is
    left unchanged.  Every returned code is the code of a CodeKey that is
    still [assigned = false] afterwards, and the CodeKey and Order
    collections (status and [delivered_codes] included) are what they were;
    the allocated code strings exist only in the response. *)
Theorem confirm_success_changes_nothing payload w w' r :
  checkout_confirm payload w = (w', Ok r) →
  CheckoutConfirmResponse.order_id r = CheckoutConfirmRequest.order_id payload ∧
  codekey (db w') = codekey (db w) ∧
  order (db w') = order (db w) ∧
  Forall (λ c, ∃ d, d ∈ codekey (db w') ∧ CodeKey.code (body d) = c
                    ∧ CodeKey.assigned (body d) = false)
         (CheckoutConfirmResponse.codes r).
Proof.
  rewrite checkout_confirm_spec. intros Hrun.
  destruct (filter _ (order (db w))) as [|o rest]; [naive_solver|].
  case_decide; simplify_eq. simpl.
  split_and!; try done. apply allocation_from_stock.
Qed.

Lemma confirm_success_changes_nothing_witness :
  codekey (db shop) = codekey shop_db ∧
  order (db shop) = order shop_db ∧
  Forall (λ c, ∃ d, d ∈ codekey (db shop) ∧ CodeKey.code (body d) = c
                    ∧ CodeKey.assigned (body d) = false)
         ["AAAA"].
Proof.
  destruct (confirm_success_changes_nothing (confirm "o1") shop shop
              (CheckoutConfirmResponse.mk "o1" ["AAAA"]))
    as (_ & Hcodes & Horders & Hfree).
  - reflexivity.
  - split; [exact Hcodes|]. split; [exact Horders|]. exact Hfree.
Defined.

(** C2 fails as stated: confirming [o1] in [shop] succeeds with the code
    ["AAAA"], and afterwards its CodeKey [k1] is still unassigned with no
    order, and the order [o1] is still pending with no delivered codes. *)
Lemma confirm_marks_nothing :
  (checkout_confirm (confirm "o1") shop).2 =
    Ok (CheckoutConfirmResponse.mk "o1" ["AAAA"]) ∧
  codekey (db (checkout_confirm (confirm "o1") shop).1) !! 0%nat =
    Some (mkDoc "k1" (CodeKey.mk "p1" "AAAA" false None None None)) ∧
  (λ o, (Order.status (body o), Order.delivered_codes (body o))) <$>
    order (db (checkout_confirm (confirm "o1") shop).1) !! 0%nat =
    Some ("pending", []).
Proof. split_and!; reflexivity. Qed.

(** C3, as the code has it: if any line item of the order has fewer
    unassigned codes than its quantity, [checkout_confirm] fails the whole
    confirmation with status 409 and the message
    ["Insufficient stock for a product"]; the world is left as it was, so
    the order keeps its pending status and no code is allocated to it. *)
Theorem confirm_shortage_rejects_order payload w o :
  placed w (CheckoutConfirmRequest.order_id payload) o →
  Exists (λ item, ¬ sufficient w item) (Order.items (body o)) →
  checkout_confirm payload w =
    (w, Raise (mkHTTPException 409 "Insufficient stock for a product")).
Proof.
  intros Hplaced Hshort.
  rewrite checkout_confirm_spec.
  destruct (filter_placed _ _ _ Hplaced) as [rest ->].
  rewrite decide_False; [done|].
  intros Hall. apply Exists_exists in Hshort as (item & Hin & Hitem).
  by eapply Hitem, Forall_forall.
Qed.

Lemma confirm_shortage_rejects_order_witness :
  checkout_confirm (confirm "o4") shop =
    (shop, Raise (mkHTTPException 409 "Insufficient stock for a product")).
Proof.
  apply (confirm_shortage_rejects_order (confirm "o4") shop
           (mkDoc "o4" (sample_order
              [CartItem.mk "p1" 2; CartItem.mk "p2" 2] 4998))).
  - exists (take 3 (order shop_db)), [].
    split; [reflexivity|]. split; [reflexivity|].
    repeat constructor; by vm_compute.
  - apply Exists_cons_tl, Exists_cons_hd. by vm_compute.
Defined.

(** C3 fails as stated, in the message only: order [o4] of [shop] asks for
    two codes of [p2], which has one, and the confirmation is refused with
    ["Insufficient stock for a product"], not ["Insufficient stock"]. *)
Lemma confirm_shortage_message :
  Exists (λ item, ¬ sufficient shop item)
         [CartItem.mk "p1" 2; CartItem.mk "p2" 2] ∧
  (checkout_confirm (confirm "o4") shop).2 =
    Raise (mkHTTPException 409 "Insufficient stock for a product") ∧
  (checkout_confirm (confirm "o4") shop).2 ≠
    Raise (mkHTTPException 409 "Insufficient stock").
Proof.
  split_and!; [| reflexivity | by vm_compute].
  apply Exists_cons_tl, Exists_cons_hd. by vm_compute.
Qed.

(** ** The claims about [checkout_init] *)

(** Two units at 1999 cents come to 3998. *)
Example cart_total_example :
  cart_total [CartItem.mk "p1" 2] [mkDoc "p1" (sample_product "Renegade" 1999)]
    = 3998.
Proof. reflexivity. Qed.

Lemma price_items_spec items products subtotal currency w :
  Forall2 (listed w) items products →
  price_items items subtotal currency w =
    (w, Ok (subtotal + cart_total items products,
            default currency (Product.currency ∘ body <$> last products))).
Proof.
  intros Hlisted. revert subtotal currency.
  induction Hlisted as [|item p items products Hp _ IH]; intros subtotal currency.
  - simpl. unfold mret, M_ret, ret, cart_total. simpl. by rewrite Z.add_0_r.
  - simpl. unfold mbind, M_bind, bind.
    rewrite (get_documents_first product_c _ w p Hp), IH.
    unfold cart_total. simpl. do 3 f_equal; [lia|].
    rewrite last_cons. by destruct (last products).
Qed.

Lemma checkout_init_listed key now post payload w products :
  Forall2 (listed w) (OrderCreate.items payload) products →
  let total := cart_total (OrderCreate.items payload) products in
  let currency := cart_currency products in
  let o := Order.mk None (OrderCreate.email payload) (OrderCreate.name payload)
             (OrderCreate.items payload) total total currency None
             "pending" [] (Some now) (Some now) in
  ∃ secret,
    checkout_init key now post payload w =
      (mkWorld (with_order w o)
         (effects w ++ Inserted "order" (next_id w) ::
            if decide (key = "") then []
            else [HttpPost stripe_url total currency]),
       Ok (CheckoutInitResponse.mk secret (next_id w) total)) ∧
    (key = "" ∨ payment_failed (post stripe_url total currency key) →
     secret = None).
Proof.
  intros Hlisted total currency o.
  unfold checkout_init, mbind, M_bind, bind.
  rewrite (price_items_spec _ _ _ _ _ Hlisted), Z.add_0_l.
  fold total currency o. unfold payment_intent, create_document. simpl.
  case_bool_decide as Hkey; unfold mret, M_ret, ret; simpl.
  - exists None. rewrite decide_True by done. by split.
  - eexists. rewrite decide_False by done.
    split; [by rewrite <- app_assoc|].
    intros [?|Hfail]; [done|].
    destruct (post _ _ _ _) as [r|]; [|done].
    simpl in Hfail. by rewrite Hfail.
Qed.

(** C5: for every cart in which each item's product exists,
    [checkout_init] computes [subtotal_cents] as the sum over the items of
    [price_cents] times [quantity], sets [total_cents] to the same amount,
    and appends the Order to the store with status ["pending"]; the
    response carries that total and the new order's identifier. *)
Theorem checkout_init_totals key now post payload w products :
  Forall2 (listed w) (OrderCreate.items payload) products →
  ∃ w' r o,
    checkout_init key now post payload w = (w', Ok r) ∧
    order (db w') = order (db w) ++ [mkDoc (CheckoutInitResponse.order_id r) o] ∧
    Order.items o = OrderCreate.items payload ∧
    Order.subtotal_cents o = cart_total (OrderCreate.items payload) products ∧
    Order.total_cents o = Order.subtotal_cents o ∧
    Order.status o = "pending" ∧
    CheckoutInitResponse.total_cents r = Order.total_cents o.
Proof.
  intros Hlisted.
  destruct (checkout_init_listed key now post payload w products Hlisted)
    as (secret & Hrun & _).
  eexists _, _, _. split; [exact Hrun|]. by simpl.
Qed.

Lemma checkout_init_totals_witness :
  ∃ w' r o,
    checkout_init "" 1700000000 provider_down cart shop = (w', Ok r) ∧
    order (db w') = order (db shop) ++ [mkDoc "oid10" o] ∧
    Order.subtotal_cents o = 4498 ∧
    Order.total_cents o = 4498 ∧
    Order.status o = "pending" ∧
    CheckoutInitResponse.total_cents r = 4498.
Proof.
  destruct (checkout_init_totals "" 1700000000 provider_down cart shop
              (product shop_db))
    as (w' & r & o & Hrun & Horder & _ & Hsub & Htot & Hstatus & Hr).
  - constructor; [by exists [], [mkDoc "p2" (sample_product "Glider" 500)]|].
    constructor; [|constructor].
    exists [mkDoc "p1" (sample_product "Renegade" 1999)], [].
    split; [reflexivity|]. split; [reflexivity|].
    repeat constructor; by vm_compute.
  - exists w', r, o. split; [exact Hrun|].
    assert (CheckoutInitResponse.order_id r = "oid10") as Hid.
    { vm_compute in Hrun. by simplify_eq. }
    rewrite Hid in Horder. split; [exact Horder|].
    rewrite Hr, Htot, Hsub. by vm_compute.
Defined.

(** C6: in [checkout_init] the Order is stored before the payment provider
    is called (the insertion precedes the request among the recorded
    effects), and with a payment-provider key configured any failure of
    the payment-intent request, an exception or a response that is not
    [ok], still yields the response with [client_secret] absent; the store
    that results, the new pending order included, is the one any other
    provider behaviour or key would have produced, so the payment call
    never prevents or alters order creation. *)
Theorem checkout_init_payment_failure key now post payload w products :
  key ≠ "" →
  Forall2 (listed w) (OrderCreate.items payload) products →
  payment_failed (post stripe_url (cart_total (OrderCreate.items payload) products)
                    (cart_currency products) key) →
  ∃ w' r o,
    checkout_init key now post payload w = (w', Ok r) ∧
    CheckoutInitResponse.client_secret r = None ∧
    effects w' = effects w ++
      [Inserted "order" (CheckoutInitResponse.order_id r);
       HttpPost stripe_url (CheckoutInitResponse.total_cents r)
         (cart_currency products)] ∧
    order (db w') = order (db w) ++ [mkDoc (CheckoutInitResponse.order_id r) o] ∧
    Order.status o = "pending" ∧
    ∀ key' post', db (checkout_init key' now post' payload w).1 = db w'.
Proof.
  intros Hkey Hlisted Hfail.
  destruct (checkout_init_listed key now post payload w products Hlisted)
    as (secret & Hrun & Hsecret).
  rewrite decide_False in Hrun by done.
  rewrite Hsecret in Hrun by (by right).
  eexists _, _, _. split; [exact Hrun|]. simpl.
  split_and!; try done.
  intros key' post'.
  destruct (checkout_init_listed key' now post' payload w products Hlisted)
    as (secret' & -> & _).
  done.
Qed.

Lemma checkout_init_payment_failure_witness :
  (∃ w' r,
     checkout_init "sk_test_1" 1700000000 provider_down cart shop = (w', Ok r) ∧
     CheckoutInitResponse.client_secret r = None ∧
     effects w' = [Inserted "order" "oid10"; HttpPost stripe_url 4498 "usd"] ∧
     db (checkout_init "sk_test_1" 1700000000 provider_answers cart shop).1 = db w') ∧
  (∃ w' r,
     checkout_init "sk_test_1" 1700000000 provider_refuses cart shop = (w', Ok r) ∧
     CheckoutInitResponse.client_secret r = None).
Proof.
  assert (Forall2 (listed shop) (OrderCreate.items cart) (product shop_db))
    as Hlisted.
  { constructor; [by exists [], [mkDoc "p2" (sample_product "Glider" 500)]|].
    constructor; [|constructor].
    exists [mkDoc "p1" (sample_product "Renegade" 1999)], [].
    split; [reflexivity|]. split; [reflexivity|].
    repeat constructor; by vm_compute. }
  split.
  - destruct (checkout_init_payment_failure "sk_test_1" 1700000000
                provider_down cart shop (product shop_db))
      as (w' & r & o & Hrun & Hsecret & Heffects & _ & _ & Hsame);
      [by vm_compute | exact Hlisted | exact I |].
    exists w', r. split; [exact Hrun|]. split; [exact Hsecret|].
    split; [|apply Hsame].
    rewrite Heffects. vm_compute in Hrun. by simplify_eq.
  - destruct (checkout_init_payment_failure "sk_test_1" 1700000000
                provider_refuses cart shop (product shop_db))
      as (w' & r & o & Hrun & Hsecret & _);
      [by vm_compute | exact Hlisted | reflexivity |].
    exists w', r. split; [exact Hrun | exact Hsecret].
Defined.

(** ** The claims about authentication *)

Lemma get_user_by_email_registered email w u :
  registered w email u → get_user_by_email email w = (w, Ok (Some u)).
Proof.
  intros Hu. unfold get_user_by_email, mbind, M_bind, bind.
  by rewrite (get_documents_first user_c _ w u Hu).
Qed.

Lemma get_user_by_email_unknown email w :
  unknown w email → get_user_by_email email w = (w, Ok None).
Proof.
  intros Hnone. unfold get_user_by_email, mbind, M_bind, bind.
  by rewrite (get_documents_none user_c _ 1 w Hnone).
Qed.

Lemma registered_same_but_role w1 w2 email u :
  Forall2 same_but_role (user (db w1)) (user (db w2)) →
  registered w1 email u →
  ∃ u', registered w2 email u' ∧ _id u' = _id u.
Proof.
  unfold registered. intros Hsame (before & after & Hl & Hu & Hbefore).
  rewrite Hl in Hsame.
  apply Forall2_app_inv_l in Hsame as (before' & rest & Hb & Hrest & Hl2).
  apply Forall2_cons_inv_l in Hrest as (u' & after' & Huu' & _ & ->).
  exists u'. split; [|by destruct Huu' as (-> & _)].
  exists before', after'. split; [done|]. split.
  - unfold by_email in *. by destruct Huu' as (_ & <- & _).
  - eapply Forall2_Forall_r; [exact Hb|].
    eapply Forall_impl; [exact Hbefore|].
    intros x Hx y (_ & Hemail & _). unfold by_email in *. by rewrite <- Hemail.
Qed.

Lemma get_current_user_registered secret dec token payload email w u :
  dec token secret [JWT_ALG] = Some payload →
  sub payload = Some email →
  registered w email u →
  get_current_user secret dec token w =
    (w, Ok (CurrentUser.mk email (default "user" (role payload)) (_id u))).
Proof.
  intros Hdec Hsub Hu. unfold get_current_user.
  rewrite Hdec, Hsub. unfold mbind, M_bind, bind.
  by rewrite (get_user_by_email_registered _ _ _ Hu).
Qed.

Lemma create_product_gate secret now dec product token w current :
  get_current_user secret dec token w = (w, Ok current) →
  (create_product secret now dec product token w).2 = Raise admin_only ↔
  CurrentUser.role current ≠ "admin".
Proof.
  intros Hcurrent. unfold create_product, mbind, M_bind, bind.
  rewrite Hcurrent. case_bool_decide; [done|].
  unfold create_document, mret, M_ret, ret. simpl. split; [done|].
  intros Hrole. by destruct Hrole.
Qed.

(** C7: [login] fails with status 400 and the message
    ["Invalid credentials"] both when no user has the email and when the
    password does not verify against the stored hash, with the same
    exception in the two cases; when the password verifies it returns a
    bearer token, the signed encoding under [JWT_SECRET] of the subject
    (the email), the user's stored role and a twelve-hour expiry. *)
Theorem login_invalid_credentials secret now enc verify payload w :
  (unknown w (UserLogin.email payload) →
   login secret now enc verify payload w = (w, Raise invalid_credentials)) ∧
  (∀ u, registered w (UserLogin.email payload) u →
        verify (UserLogin.password payload) (User.password_hash (body u)) = false →
        login secret now enc verify payload w = (w, Raise invalid_credentials)) ∧
  (∀ u, registered w (UserLogin.email payload) u →
        verify (UserLogin.password payload) (User.password_hash (body u)) = true →
        login secret now enc verify payload w =
          (w, Ok (TokenResponse.mk
                    (enc (mkClaims (Some (UserLogin.email payload))
                                   (Some (User.role (body u)))
                                   (Some (now + 12 * 3600)))
                         secret "HS256")
                    "bearer"))).
Proof.
  split_and!.
  - intros Hnone. unfold login, mbind, M_bind, bind.
    by rewrite (get_user_by_email_unknown _ _ Hnone).
  - intros u Hu Hwrong. unfold login, mbind, M_bind, bind.
    by rewrite (get_user_by_email_registered _ _ _ Hu), Hwrong.
  - intros u Hu Hright. unfold login, mbind, M_bind, bind.
    by rewrite (get_user_by_email_registered _ _ _ Hu), Hright.
Qed.

Lemma login_invalid_credentials_witness :
  login "devsecret" 1700000000 toy_encode toy_verify
    (UserLogin.mk "nobody@example.com" "secret") shop =
    (shop, Raise (mkHTTPException 400 "Invalid credentials")) ∧
  login "devsecret" 1700000000 toy_encode toy_verify
    (UserLogin.mk "ann@example.com" "guess") shop =
    (shop, Raise (mkHTTPException 400 "Invalid credentials")) ∧
  login "devsecret" 1700000000 toy_encode toy_verify
    (UserLogin.mk "ann@example.com" "secret") shop =
    (shop, Ok (TokenResponse.mk "ann@example.com/user" "bearer")).
Proof.
  assert (registered shop "ann@example.com"
            (mkDoc "u1" (sample_user "ann@example.com" "hash-of-secret" "user")))
    as Hann.
  { exists [], (drop 1 (user shop_db)). split; [reflexivity|].
    split; [reflexivity | constructor]. }
  split_and!.
  - apply (login_invalid_credentials "devsecret" 1700000000 toy_encode
             toy_verify (UserLogin.mk "nobody@example.com" "secret") shop).
    repeat constructor; by vm_compute.
  - apply (login_invalid_credentials "devsecret" 1700000000 toy_encode
             toy_verify (UserLogin.mk "ann@example.com" "guess") shop)
      with (u := mkDoc "u1" (sample_user "ann@example.com" "hash-of-secret" "user"));
      [exact Hann | reflexivity].
  - apply (login_invalid_credentials "devsecret" 1700000000 toy_encode
             toy_verify (UserLogin.mk "ann@example.com" "secret") shop)
      with (u := mkDoc "u1" (sample_user "ann@example.com" "hash-of-secret" "user"));
      [exact Hann | reflexivity].
Defined.

(** C10: for every token that decodes (valid and unexpired) and whose
    subject email belongs to a stored user, [get_current_user] returns the
    role of the token's role claim, ["user"] when the claim is absent, and
    never reads the stored [role]: two stores whose user documents differ
    only in their [role] fields give the same authenticated user for the
    same token, and the admin gate of [create_product] refuses exactly
    when the claimed role is not ["admin"], in both. *)
Theorem role_comes_from_token secret dec token payload email w1 w2 u :
  dec token secret [JWT_ALG] = Some payload →
  sub payload = Some email →
  registered w1 email u →
  Forall2 same_but_role (user (db w1)) (user (db w2)) →
  let current :=
    CurrentUser.mk email (default "user" (role payload)) (_id u) in
  get_current_user secret dec token w1 = (w1, Ok current) ∧
  get_current_user secret dec token w2 = (w2, Ok current) ∧
  ∀ now product,
    ((create_product secret now dec product token w1).2 = Raise admin_only ↔
     default "user" (role payload) ≠ "admin") ∧
    ((create_product secret now dec product token w2).2 = Raise admin_only ↔
     default "user" (role payload) ≠ "admin").
Proof.
  intros Hdec Hsub Hu Hsame current.
  destruct (registered_same_but_role _ _ _ _ Hsame Hu) as (u' & Hu' & Hid).
  pose proof (get_current_user_registered _ _ _ _ _ _ _ Hdec Hsub Hu) as H1.
  pose proof (get_current_user_registered _ _ _ _ _ _ _ Hdec Hsub Hu') as H2.
  rewrite Hid in H2. fold current in H1, H2.
  split_and!; [done..|].
  intros now product. split.
  - by rewrite (create_product_gate _ _ _ _ _ _ _ H1).
  - by rewrite (create_product_gate _ _ _ _ _ _ _ H2).
Qed.

Lemma role_comes_from_token_witness :
  get_current_user "devsecret" toy_decode "ann@example.com/admin" shop =
    (shop, Ok (CurrentUser.mk "ann@example.com" "admin" "u1")) ∧
  get_current_user "devsecret" toy_decode "ann@example.com/admin"
    shop_roles_swapped =
    (shop_roles_swapped, Ok (CurrentUser.mk "ann@example.com" "admin" "u1")) ∧
  (create_product "devsecret" 1700000000 toy_decode
     (sample_product "Pickaxe" 800) "ann@example.com/admin" shop).2 ≠
    Raise admin_only.
Proof.
  destruct (role_comes_from_token "devsecret" toy_decode
              "ann@example.com/admin"
              (mkClaims (Some "ann@example.com") (Some "admin") (Some 1700043200))
              "ann@example.com" shop shop_roles_swapped
              (mkDoc "u1" (sample_user "ann@example.com" "hash-of-secret" "user")))
    as (H1 & H2 & Hgate).
  - reflexivity.
  - reflexivity.
  - exists [], (drop 1 (user shop_db)). split; [reflexivity|].
    split; [reflexivity | constructor].
  - repeat constructor.
  - split; [exact H1|]. split; [exact H2|].
    intros Hrefused.
    destruct (Hgate 1700000000 (sample_product "Pickaxe" 800)) as [[Hno _] _].
    by apply Hno.
Defined.

End StorefrontSpec.

(** * Properties of the game-stat proxy *)

Module GameStatsSpec.
Import GameStats GameStatsTerms.

(** ** Filling the skills dictionary *)

Section Fill.
Context {V : Type} (g : nat → V).

Lemma fill_other l m k :
  k ∉ l.*2 → foldl (fill g) m l !! k = m !! k.
Proof.
  revert m. induction l as [|[j k'] l IH]; intros m Hk; [done|].
  simpl in *. apply not_elem_of_cons in Hk as [Hne Hk].
  rewrite IH by done. by apply lookup_insert_ne.
Qed.

Lemma fill_lookup l m j k :
  NoDup l.*2 → (j, k) ∈ l → foldl (fill g) m l !! k = Some (g j).
Proof.
  revert m. induction l as [|[j' k'] l IH]; intros m Hnodup Hin.
  - by apply elem_of_nil in Hin.
  - simpl in *. apply NoDup_cons in Hnodup as [Hfresh Hnodup].
    apply elem_of_cons in Hin as [Heq|Hin].
    + simplify_eq. rewrite fill_other by done. apply lookup_insert_eq.
    + by apply IH.
Qed.
End Fill.

Lemma skills_distinct : NoDup skills.
Proof. by apply (bool_decide_unpack _); vm_compute. Qed.

Lemma parse_skills_lookup lines i skill :
  skills !! i = Some skill →
  parse_skills lines !! skill = Some (default default_entry (parse_line lines i)).
Proof.
  intros Hskill. unfold parse_skills.
  apply (fill_lookup (λ i, default default_entry (parse_line lines i))).
  - change ((imap pair skills).*2) with skills. apply skills_distinct.
  - apply list_elem_of_lookup. exists i.
    by rewrite list_lookup_imap, Hskill.
Qed.

(** ** Python strings, by example *)

Example strip_examples :
  strip "  zezima " = "zezima" ∧ strip "iron man" = "iron man" ∧
  strip "   " = EmptyString.
Proof. by vm_compute. Qed.

Example split_examples :
  split ","%char "1,2,3" = ["1"; "2"; "3"] ∧
  split ","%char "1,,3" = ["1"; EmptyString; "3"] ∧
  split ","%char "12" = ["12"] ∧
  split ","%char EmptyString = [EmptyString].
Proof. by vm_compute. Qed.

Example int_examples :
  int "42" = Some 42 ∧ int " 42 " = Some 42 ∧ int "-1" = Some (-1) ∧
  int "+7" = Some 7 ∧ int "007" = Some 7 ∧ int "1_000" = Some 1000 ∧
  int EmptyString = None ∧ int "-" = None ∧ int "4 2" = None ∧
  int "12.5" = None ∧ int "_1" = None ∧ int "1_" = None ∧ int "1__0" = None ∧
  int "0x10" = None.
Proof. by vm_compute. Qed.

Example skill_line_examples :
  skill_line "120,2277,460000000" = Some (mkSkillEntry 120 2277 460000000) ∧
  skill_line "-1,1,-1" = Some (mkSkillEntry (-1) 1 (-1)) ∧
  malformed "not,a,number" ∧ malformed "120,2277" ∧ malformed "1,2,3,4" ∧
  malformed "1;2;3" ∧ malformed EmptyString.
Proof. by vm_compute. Qed.

(** ** The lookup on every path *)

Ltac run :=
  unfold try_except, try_pass, raise_for_status, get, create_document,
    mbind, mret, M_bind, M_ret, bind, ret, raise; simpl.

Lemma get_osrs_stats_blank requests_get quote message payload w :
  strip (username payload) = "" →
  get_osrs_stats requests_get quote message payload w =
    (w, Raise (HTTPException 400 "Username required")).
Proof.
  intros Hblank. unfold get_osrs_stats.
  by rewrite bool_decide_eq_true_2.
Qed.

Lemma get_osrs_stats_spec requests_get quote message payload w :
  let username := strip (username payload) in
  username ≠ "" →
  get_osrs_stats requests_get quote message payload w =
    match requests_get (hiscore_url +:+ quote username) with
    | Raised e =>
        (logged w (osrs_entry username false (Some (truncate 200 e))),
         Raise failed_to_fetch)
    | Returned r =>
        if decide (status_code r = 404) then (w, Raise player_not_found)
        else if decide (error_status r) then
          (logged w (osrs_entry username false (Some (truncate 200 (message r)))),
           Raise failed_to_fetch)
        else
          (logged w (osrs_entry username true None),
           Ok (mkOsrsStats "osrs" username (parse_skills (page_lines r))))
    end.
Proof.
  intros username Hname. unfold get_osrs_stats. fold username.
  rewrite bool_decide_eq_false_2 by done.
  unfold logged. run.
  destruct (requests_get _) as [r|e]; simpl.
  - case_bool_decide; [by rewrite decide_True|].
    rewrite decide_False by done.
    unfold error_status. case_bool_decide.
    + rewrite decide_True by done. simpl. by destruct (reachable w).
    + rewrite decide_False by done. simpl. by destruct (reachable w).
  - by destruct (reachable w).
Qed.

(** ** The claims about [get_osrs_stats] *)

(** C8, as the code has it: for a non-blank username and a reachable
    store, [get_osrs_stats] appends exactly one search-log entry with
    [result_ok = True] when the lookup succeeds, and exactly one with
    [result_ok = False] (and the error text, cut to 200 characters) when the
    upstream call raises or answers with an error status other than 404;
    when the player is not found (404) it records nothing. *)
Theorem osrs_search_log requests_get quote message payload w :
  let username := strip (username payload) in
  let url := hiscore_url +:+ quote username in
  let outcome := get_osrs_stats requests_get quote message payload w in
  username ≠ "" →
  reachable w = true →
  (∀ r, requests_get url = Returned r → status_code r ≠ 404 → ¬ error_status r →
        ∃ stats, outcome.2 = Ok stats ∧
          searchlog outcome.1 = searchlog w ++ [osrs_entry username true None]) ∧
  (∀ r, requests_get url = Returned r → status_code r ≠ 404 → error_status r →
        outcome.2 = Raise failed_to_fetch ∧
        searchlog outcome.1 =
          searchlog w ++
            [osrs_entry username false (Some (truncate 200 (message r)))]) ∧
  (∀ e, requests_get url = Raised e →
        outcome.2 = Raise failed_to_fetch ∧
        searchlog outcome.1 =
          searchlog w ++ [osrs_entry username false (Some (truncate 200 e))]) ∧
  (∀ r, requests_get url = Returned r → status_code r = 404 →
        outcome.2 = Raise player_not_found ∧ outcome.1 = w).
Proof.
  intros username url outcome Hname Hup. unfold outcome.
  rewrite get_osrs_stats_spec by done. fold username url.
  unfold logged. rewrite Hup.
  split_and!.
  - intros r -> H404 Herr. rewrite !decide_False by done. eauto.
  - intros r -> H404 Herr.
    by rewrite decide_False, decide_True by done.
  - by intros e ->.
  - intros r -> H404. by rewrite decide_True.
Qed.

Lemma osrs_search_log_witness :
  searchlog (get_osrs_stats (serves 200 hiscores) id error_text
               (mkOSRSSearch " zezima ") empty_log).1 =
    [osrs_entry "zezima" true None] ∧
  searchlog (get_osrs_stats (serves 503 "") id error_text
               (mkOSRSSearch " zezima ") empty_log).1 =
    [osrs_entry "zezima" false (Some "upstream error")] ∧
  searchlog (get_osrs_stats unreachable id error_text
               (mkOSRSSearch " zezima ") empty_log).1 =
    [osrs_entry "zezima" false (Some "connection timed out")] ∧
  (get_osrs_stats (serves 404 "") id error_text
     (mkOSRSSearch " zezima ") empty_log).1 = empty_log.
Proof.
  split_and!.
  - destruct (osrs_search_log (serves 200 hiscores) id error_text
                (mkOSRSSearch " zezima ") empty_log) as (Hok & _);
      [by vm_compute | reflexivity |].
    destruct (Hok (mkResponse 200 hiscores)) as (stats & _ & Hlog);
      [reflexivity | by vm_compute | unfold error_status; simpl; lia |].
    exact Hlog.
  - destruct (osrs_search_log (serves 503 "") id error_text
                (mkOSRSSearch " zezima ") empty_log) as (_ & Herr & _);
      [by vm_compute | reflexivity |].
    destruct (Herr (mkResponse 503 "")) as (_ & Hlog);
      [reflexivity | by vm_compute | unfold error_status; simpl; lia |].
    exact Hlog.
  - destruct (osrs_search_log unreachable id error_text
                (mkOSRSSearch " zezima ") empty_log) as (_ & _ & Hdown & _);
      [by vm_compute | reflexivity |].
    destruct (Hdown "connection timed out") as (_ & Hlog); [reflexivity|].
    exact Hlog.
  - destruct (osrs_search_log (serves 404 "") id error_text
                (mkOSRSSearch " zezima ") empty_log) as (_ & _ & _ & Hmiss);
      [by vm_compute | reflexivity |].
    destruct (Hmiss (mkResponse 404 "")) as (_ & Hsame);
      [reflexivity | reflexivity |].
    exact Hsame.
Defined.

(** C8 fails as stated: when the hiscore server answers 404 the lookup
    ends in "Player not found" and the search log, empty before, is still
    empty; a blank username is refused with no entry either. *)
Lemma osrs_not_found_is_not_logged :
  get_osrs_stats (serves 404 "") id error_text (mkOSRSSearch "zezima")
    empty_log =
    (mkDatabase [] true, Raise (HTTPException 404 "Player not found")) ∧
  get_osrs_stats (serves 200 hiscores) id error_text (mkOSRSSearch "  ")
    empty_log =
    (mkDatabase [] true, Raise (HTTPException 400 "Username required")).
Proof. split; reflexivity. Qed.



End GameStatsSpec.

(** * Properties of the other storefront handlers *)

Module StorefrontRestSpec.
Import Storefront StorefrontTerms StorefrontRest StorefrontRestTerms.
Import StorefrontSpec.

Ltac step := unfold mbind, mret, M_bind, M_ret, bind, ret, raise; simpl.

(** ** Checkout, continued *)

Lemma price_items_app found products rest subtotal currency w :
  Forall2 (listed w) found products →
  price_items (found ++ rest) subtotal currency w =
    price_items rest (subtotal + cart_total found products)
      (default currency (Product.currency ∘ body <$> last products)) w.
Proof.
  intros Hlisted. revert subtotal currency.
  induction Hlisted as [|item p found products Hp _ IH]; intros subtotal currency.
  - simpl. unfold cart_total. simpl. by rewrite Z.add_0_r.
  - simpl. unfold mbind, M_bind, bind.
    rewrite (get_documents_first product_c _ w p Hp), IH.
    unfold cart_total. simpl. rewrite Z.add_assoc. f_equal.
    rewrite last_cons. by destruct (last products).
Qed.

(** A cart naming a product that does not exist is refused with status 400
    and the message ["Invalid product <id>"] for the first such line; no
    order is stored and the payment provider is not called, whatever the
    lines after it are. *)
Theorem checkout_init_invalid_product key now post payload w found products
    missing rest :
  OrderCreate.items payload = found ++ missing :: rest →
  Forall2 (listed w) found products →
  unlisted w missing →
  checkout_init key now post payload w =
    (w, Raise (mkHTTPException 400
                 ("Invalid product " +:+ CartItem.product_id missing))).
Proof.
  intros Hitems Hfound Hmissing.
  unfold checkout_init, mbind, M_bind, bind.
  rewrite Hitems, (price_items_app _ _ _ _ _ _ Hfound). simpl.
  unfold mbind, M_bind, bind.
  by rewrite (get_documents_none product_c _ 1 w Hmissing).
Qed.

Lemma checkout_init_invalid_product_witness :
  checkout_init "sk_test_1" 1700000000 provider_answers
    (OrderCreate.mk [CartItem.mk "p1" 1; CartItem.mk "gone" 2; CartItem.mk "p2" 1]
       "ann@example.com" None) shop =
    (shop, Raise (mkHTTPException 400 "Invalid product gone")).
Proof.
  apply (checkout_init_invalid_product "sk_test_1" 1700000000 provider_answers
           (OrderCreate.mk
              [CartItem.mk "p1" 1; CartItem.mk "gone" 2; CartItem.mk "p2" 1]
              "ann@example.com" None)
           shop [CartItem.mk "p1" 1]
           [mkDoc "p1" (sample_product "Renegade" 1999)]
           (CartItem.mk "gone" 2) [CartItem.mk "p2" 1]).
  - reflexivity.
  - constructor; [|constructor].
    by exists [], [mkDoc "p2" (sample_product "Glider" 500)].
  - repeat constructor; by vm_compute.
Defined.

(** The order [checkout_init] stores can be confirmed under the identifier
    it returns: provided that identifier is not already an order's, the
    confirmation is decided by the cart's own lines, returning one code per
    unit from the stock when every line is covered and the 409 refusal
    otherwise. *)
Theorem checkout_then_confirm key now post payload provider w products :
  Forall2 (listed w) (OrderCreate.items payload) products →
  Forall (λ d, ¬ by_oid (next_id w) d) (order (db w)) →
  ∃ w1 r,
    checkout_init key now post payload w = (w1, Ok r) ∧
    checkout_confirm
      (CheckoutConfirmRequest.mk (CheckoutInitResponse.order_id r) provider) w1 =
      (w1, if decide (Forall (sufficient w) (OrderCreate.items payload))
           then Ok (CheckoutConfirmResponse.mk (CheckoutInitResponse.order_id r)
                      (allocation w (OrderCreate.items payload)))
           else Raise insufficient_stock).
Proof.
  intros Hlisted Hfresh.
  destruct (checkout_init_listed key now post payload w products Hlisted)
    as (secret & Hrun & _).
  eexists _, _. split; [exact Hrun|].
  rewrite checkout_confirm_spec. simpl.
  rewrite filter_app, (filter_none _ _ Hfresh), filter_cons_True by done.
  reflexivity.
Qed.

Lemma checkout_then_confirm_witness :
  ∃ w1 r,
    checkout_init "sk_test_1" 1700000000 provider_answers cart shop = (w1, Ok r) ∧
    checkout_confirm
      (CheckoutConfirmRequest.mk (CheckoutInitResponse.order_id r) "stripe") w1 =
      (w1, Ok (CheckoutConfirmResponse.mk (CheckoutInitResponse.order_id r)
                 ["AAAA"; "BBBB"; "CCCC"])).
Proof.
  destruct (checkout_then_confirm "sk_test_1" 1700000000 provider_answers cart
              "stripe" shop (product shop_db))
    as (w1 & r & Hinit & Hconfirm).
  - constructor; [by exists [], [mkDoc "p2" (sample_product "Glider" 500)]|].
    constructor; [|constructor].
    exists [mkDoc "p1" (sample_product "Renegade" 1999)], [].
    split; [reflexivity|]. split; [reflexivity|].
    repeat constructor; by vm_compute.
  - repeat constructor; by vm_compute.
  - exists w1, r. split; [exact Hinit|]. exact Hconfirm.
Defined.

(** The order takes the currency of the last product looked up: for a
    cart whose products all exist, the stored order's currency is that of
    the product of the last line, whatever the currencies of the lines
    before it; an empty cart is accepted and stored as an order of total 0
    in ["usd"]. *)
Theorem checkout_init_currency_of_last key now post payload w products :
  Forall2 (listed w) (OrderCreate.items payload) products →
  ∃ w' r o,
    checkout_init key now post payload w = (w', Ok r) ∧
    order (db w') = order (db w) ++ [mkDoc (CheckoutInitResponse.order_id r) o] ∧
    (∀ p, last products = Some p →
          Order.currency o = Product.currency (body p)) ∧
    (OrderCreate.items payload = [] →
     Order.currency o = "usd" ∧ Order.total_cents o = 0 ∧
     CheckoutInitResponse.total_cents r = 0).
Proof.
  intros Hlisted.
  destruct (checkout_init_listed key now post payload w products Hlisted)
    as (secret & Hrun & _).
  eexists _, _, _. split; [exact Hrun|]. simpl. split; [done|]. split.
  - intros p Hp. unfold cart_currency. by rewrite Hp.
  - intros Hempty. rewrite Hempty in Hlisted.
    apply Forall2_nil_inv_l in Hlisted as ->. by rewrite Hempty.
Qed.

Lemma checkout_init_currency_of_last_witness :
  ∃ w' r o,
    checkout_init EmptyString 1700000000 provider_down
      (OrderCreate.mk [CartItem.mk "p1" 1; CartItem.mk "e1" 1]
         "ann@example.com" None)
      (mkWorld
         (mkDatabase
            (product shop_db ++
               [mkDoc "e1" (Product.mk "Euro pack" "Roblox" "coins" EmptyString
                              [] 900 "eur" true [] None None)])
            (codekey shop_db) (order shop_db) (user shop_db) 10) []) =
      (w', Ok r) ∧
    order (db w') = order shop_db ++ [mkDoc "oid10" o] ∧
    Order.currency o = "eur" ∧
    Order.total_cents o = 2899.
Proof.
  set (w := mkWorld _ _).
  destruct (checkout_init_currency_of_last EmptyString 1700000000 provider_down
              (OrderCreate.mk [CartItem.mk "p1" 1; CartItem.mk "e1" 1]
                 "ann@example.com" None) w
              [mkDoc "p1" (sample_product "Renegade" 1999);
               mkDoc "e1" (Product.mk "Euro pack" "Roblox" "coins" EmptyString
                             [] 900 "eur" true [] None None)])
    as (w' & r & o & Hrun & Horder & Hlast & _).
  - constructor; [by exists [], (drop 1 (product (db w)))|].
    constructor; [|constructor].
    exists (product shop_db), []. split; [reflexivity|].
    split; [reflexivity|]. repeat constructor; by vm_compute.
  - exists w', r, o. split; [exact Hrun|].
    vm_compute in Hrun. simplify_eq. vm_compute in Horder.
    simplify_list_eq. by split_and!.
Defined.

(** Confirming an order that does not exist answers 404 "Order not found"
    and reads no code. *)
Theorem confirm_unknown_order payload w :
  Forall (λ d, ¬ by_oid (CheckoutConfirmRequest.order_id payload) d)
         (order (db w)) →
  checkout_confirm payload w =
    (w, Raise (mkHTTPException 404 "Order not found")).
Proof.
  intros Hnone. rewrite checkout_confirm_spec.
  by rewrite (filter_none _ _ Hnone).
Qed.

Lemma confirm_unknown_order_witness :
  checkout_confirm (confirm "o9") shop =
    (shop, Raise (mkHTTPException 404 "Order not found")).
Proof.
  apply (confirm_unknown_order (confirm "o9") shop).
  repeat constructor; by vm_compute.
Defined.

(** ** Registration *)

Lemma first_match_or_none {A} (P : A → Prop) `{∀ x, Decision (P x)} (l : list A) :
  Forall (λ y, ¬ P y) l ∨ ∃ x, first_match P l x.
Proof.
  induction l as [|y l [Hnone|(x & before & after & -> & Hx & Hbefore)]].
  - left. constructor.
  - destruct (decide (P y)) as [Hy|Hy].
    + right. exists y, [], l. by split_and!.
    + left. by constructor.
  - destruct (decide (P y)) as [Hy|Hy].
    + right. exists y, [], (before ++ x :: after). by split_and!.
    + right. exists x, (y :: before), after. split_and!; [done..|].
      by constructor.
Qed.

Lemma register_taken secret now enc hash payload w u :
  registered w (UserRegister.email payload) u →
  register secret now enc hash payload w = (w, Raise email_taken).
Proof.
  intros Hu. unfold register, mbind, M_bind, bind.
  by rewrite (get_user_by_email_registered _ _ _ Hu).
Qed.

Lemma register_unknown secret now enc hash payload w :
  unknown w (UserRegister.email payload) →
  register secret now enc hash payload w =
    (mkWorld
       (mkDatabase (product (db w)) (codekey (db w)) (order (db w))
          (user (db w) ++ [mkDoc (next_id w) (new_user now hash payload)])
          (S (next_oid (db w))))
       (effects w ++ [Inserted "user" (next_id w)]),
     Ok (TokenResponse.mk
           (enc (issued now (UserRegister.email payload) "user") secret "HS256")
           "bearer")).
Proof.
  intros Hnone. unfold register, mbind, M_bind, bind.
  by rewrite (get_user_by_email_unknown _ _ Hnone).
Qed.

Lemma registered_after_register secret now enc hash payload w :
  unknown w (UserRegister.email payload) →
  registered (register secret now enc hash payload w).1
    (UserRegister.email payload)
    (mkDoc (next_id w) (new_user now hash payload)).
Proof.
  intros Hnone. rewrite register_unknown by done.
  by exists (user (db w)), [].
Qed.

(** Registering an email address that a stored user already has is refused
    with status 400 and the message ["Email already registered"], and
    nothing is written. *)
Theorem register_rejects_duplicate secret now enc hash payload w u :
  registered w (UserRegister.email payload) u →
  register secret now enc hash payload w =
    (w, Raise (mkHTTPException 400 "Email already registered")).
Proof. apply register_taken. Qed.

Lemma register_rejects_duplicate_witness :
  register "devsecret" 1700000000 toy_encode toy_hash
    (UserRegister.mk "ann@example.com" "another" None) shop =
    (shop, Raise (mkHTTPException 400 "Email already registered")).
Proof.
  apply (register_rejects_duplicate "devsecret" 1700000000 toy_encode toy_hash
           (UserRegister.mk "ann@example.com" "another" None) shop
           (mkDoc "u1" (sample_user "ann@example.com" "hash-of-secret" "user"))).
  exists [], (drop 1 (user shop_db)). split; [reflexivity|].
  split; [reflexivity | constructor].
Defined.

(** Registering a new email address appends exactly one user document,
    which holds the hash of the password and not the password, and whose
    role is ["user"] whatever the request says; the other collections are
    untouched, and the token returned is issued to that email with the role
    ["user"] for twelve hours. *)
Theorem register_creates_plain_user secret now enc hash payload w :
  unknown w (UserRegister.email payload) →
  ∃ w' id,
    register secret now enc hash payload w =
      (w', Ok (TokenResponse.mk
                 (enc (mkClaims (Some (UserRegister.email payload)) (Some "user")
                         (Some (now + 12 * 3600)))
                      secret "HS256")
                 "bearer")) ∧
    user (db w') =
      user (db w) ++
        [mkDoc id (User.mk (UserRegister.email payload)
                     (UserRegister.name payload)
                     (hash (UserRegister.password payload)) "user"
                     (Some now) (Some now))] ∧
    product (db w') = product (db w) ∧
    codekey (db w') = codekey (db w) ∧
    order (db w') = order (db w).
Proof.
  intros Hnone. eexists _, _.
  split; [by apply register_unknown|]. by simpl.
Qed.

Lemma register_creates_plain_user_witness :
  ∃ w',
    register "devsecret" 1700000000 toy_encode toy_hash bob shop =
      (w', Ok (TokenResponse.mk "bob@example.com/user" "bearer")) ∧
    user (db w') =
      user (db shop) ++
        [mkDoc "oid10" (User.mk "bob@example.com" (Some "Bob") "hash-of-pw"
                          "user" (Some 1700000000) (Some 1700000000))].
Proof.
  destruct (register_creates_plain_user "devsecret" 1700000000 toy_encode
              toy_hash bob shop)
    as (w' & id & Hrun & Husers & _).
  - repeat constructor; by vm_compute.
  - exists w'. split; [exact Hrun|].
    assert (id = "oid10") as <-; [|exact Husers].
    vm_compute in Hrun. simplify_eq. vm_compute in Husers. by simplify_list_eq.
Defined.

(** [register] keeps email addresses unique: if no two stored users share
    an email address before the call, none do after it, whether the call
    succeeds or is refused. *)
Theorem register_keeps_emails_distinct secret now enc hash payload w :
  NoDup (emails w) →
  NoDup (emails (register secret now enc hash payload w).1).
Proof.
  intros Hdistinct.
  destruct (first_match_or_none (by_email (UserRegister.email payload))
              (user (db w))) as [Hnone|[u Hu]].
  - rewrite register_unknown by done. unfold emails. simpl.
    rewrite fmap_app. apply NoDup_app. split_and!; [done| |apply NoDup_singleton].
    intros e He Hnew. simpl in Hnew. apply list_elem_of_singleton in Hnew as ->.
    apply list_elem_of_fmap in He as (d & Hd & Hin).
    by eapply (proj1 (Forall_forall _ _) Hnone d).
  - by rewrite (register_taken _ _ _ _ _ _ _ Hu).
Qed.

Lemma register_keeps_emails_distinct_witness :
  NoDup (emails (register "devsecret" 1700000000 toy_encode toy_hash bob shop).1) ∧
  NoDup (emails (register "devsecret" 1700000000 toy_encode toy_hash
                   (UserRegister.mk "ann@example.com" "x" None) shop).1).
Proof.
  split.
  - apply (register_keeps_emails_distinct "devsecret" 1700000000 toy_encode
             toy_hash bob shop).
    by apply (bool_decide_unpack _); vm_compute.
  - apply (register_keeps_emails_distinct "devsecret" 1700000000 toy_encode
             toy_hash (UserRegister.mk "ann@example.com" "x" None) shop).
    by apply (bool_decide_unpack _); vm_compute.
Defined.



(** ** Authentication and the admin endpoints *)

Lemma registered_not_unknown w email u :
  registered w email u → unknown w email → False.
Proof.
  intros (before & after & Hl & Hu & _) Hnone.
  unfold unknown in Hnone. rewrite Hl in Hnone.
  apply Forall_app in Hnone as [_ Hnone].
  by apply Forall_cons_1 in Hnone as [? _].
Qed.

Lemma get_current_user_cases secret dec token w :
  get_current_user secret dec token w = (w, Raise credentials_exception) ∨
  ∃ payload email u,
    dec token secret [JWT_ALG] = Some payload ∧ sub payload = Some email ∧
    registered w email u ∧
    get_current_user secret dec token w =
      (w, Ok (CurrentUser.mk email (default "user" (role payload)) (_id u))).
Proof.
  unfold get_current_user.
  destruct (dec token secret [JWT_ALG]) as [payload|] eqn:Hdec; [|by left].
  destruct (sub payload) as [email|] eqn:Hsub; [|by left].
  unfold mbind, M_bind, bind.
  destruct (first_match_or_none (by_email email) (user (db w))) as [Hnone|[u Hu]].
  - left. by rewrite (get_user_by_email_unknown _ _ Hnone).
  - right. exists payload, email, u.
    by rewrite (get_user_by_email_registered _ _ _ Hu).
Qed.

(** [get_current_user] answers 401 "Could not validate credentials" exactly
    when the token does not decode, carries no subject, or names an email
    address no stored user has; in every case it leaves the world as it
    was, and it fails in no other way. *)
Theorem get_current_user_unauthorized secret dec token w :
  ∃ r,
    get_current_user secret dec token w = (w, r) ∧
    (r = Raise (mkHTTPException 401 "Could not validate credentials") ↔
     ¬ ∃ payload email u,
         dec token secret [JWT_ALG] = Some payload ∧
         sub payload = Some email ∧ registered w email u) ∧
    (∀ e, r = Raise e → status_code e = 401).
Proof.
  destruct (get_current_user_cases secret dec token w)
    as [Hrun|(payload & email & u & Hdec & Hsub & Hu & Hrun)].
  - eexists. split; [exact Hrun|]. split; [|by intros e [= <-]].
    split; [|done]. intros _ (payload & email & u & Hdec & Hsub & Hu).
    unfold get_current_user in Hrun. rewrite Hdec, Hsub in Hrun.
    unfold mbind, M_bind, bind in Hrun.
    by rewrite (get_user_by_email_registered _ _ _ Hu) in Hrun.
  - eexists. split; [exact Hrun|]. split; [|done].
    split; [done|]. intros Hnot. destruct Hnot. by exists payload, email, u.
Qed.

Lemma get_current_user_unauthorized_witness :
  get_current_user "devsecret" toy_decode "forged" shop =
    (shop, Raise (mkHTTPException 401 "Could not validate credentials")).
Proof.
  destruct (get_current_user_unauthorized "devsecret" toy_decode "forged" shop)
    as (r & Hrun & [_ H401] & _).
  rewrite Hrun. f_equal. apply H401.
  intros (payload & email & u & Hdec & _). by vm_compute in Hdec.
Defined.

(** Without an admin token the admin endpoints write nothing: when the
    token does not authenticate as a user whose claimed role is ["admin"],
    [create_product], [add_codes] and [update_product] all answer the same
    refusal, 401 for a token that is not accepted and 403 "Admin only"
    otherwise, and leave the world untouched. *)
Theorem admin_endpoints_refuse secret now dec token w product codes
    product_id patch :
  (∀ current,
     get_current_user secret dec token w = (w, Ok current) →
     CurrentUser.role current ≠ "admin") →
  ∃ e, refusal e ∧
    create_product secret now dec product token w = (w, Raise e) ∧
    add_codes secret now dec codes token w = (w, Raise e) ∧
    update_product secret dec product_id patch token w = (w, Raise e).
Proof.
  intros Hnot_admin.
  destruct (get_current_user_cases secret dec token w)
    as [Hrun|(payload & email & u & _ & _ & _ & Hrun)].
  - exists credentials_exception. split; [by left|].
    unfold create_product, add_codes, update_product, mbind, M_bind, bind.
    by rewrite Hrun.
  - exists admin_only. split; [by right|].
    specialize (Hnot_admin _ Hrun).
    unfold create_product, add_codes, update_product, mbind, M_bind, bind.
    rewrite Hrun. by rewrite bool_decide_eq_true_2.
Qed.

Lemma admin_endpoints_refuse_witness :
  create_product "devsecret" 1700000000 toy_decode
    (sample_product "Pickaxe" 800) "ann@example.com" shop =
    (shop, Raise (mkHTTPException 403 "Admin only")) ∧
  add_codes "devsecret" 1700000000 toy_decode
    (AdminAddCodes.mk "p1" ["ZZZZ"]) "ann@example.com" shop =
    (shop, Raise (mkHTTPException 403 "Admin only")) ∧
  update_product "devsecret" toy_decode "p1" no_patch "ann@example.com" shop =
    (shop, Raise (mkHTTPException 403 "Admin only")).
Proof.
  destruct (admin_endpoints_refuse "devsecret" 1700000000 toy_decode
              "ann@example.com" shop (sample_product "Pickaxe" 800)
              (AdminAddCodes.mk "p1" ["ZZZZ"]) "p1" no_patch)
    as (e & _ & Hcreate & Hadd & Hupdate).
  - intros current Hrun. vm_compute in Hrun. by simplify_eq.
  - assert (e = mkHTTPException 403 "Admin only") as <-.
    { vm_compute in Hcreate. by simplify_eq. }
    by split_and!.
Defined.

(** [update_product] never updates anything: for every token and
    every patch it raises and leaves the world as it was.  It answers 501
    "Update not implemented in this environment" exactly when
    [get_current_user] accepts the token with the role "admin", 403
    "Admin only" exactly when it accepts the token with any other role,
    and 401 "Could not validate credentials" exactly when it refuses the
    token; there is no fourth answer. *)
Theorem update_product_never_updates secret dec product_id patch token w :
  ∃ e,
    update_product secret dec product_id patch token w = (w, Raise e) ∧
    (e = mkHTTPException 501 "Update not implemented in this environment" ↔
     ∃ current,
       get_current_user secret dec token w = (w, Ok current) ∧
       CurrentUser.role current = "admin") ∧
    (e = mkHTTPException 403 "Admin only" ↔
     ∃ current,
       get_current_user secret dec token w = (w, Ok current) ∧
       CurrentUser.role current ≠ "admin") ∧
    (e = mkHTTPException 401 "Could not validate credentials" ↔
     get_current_user secret dec token w =
       (w, Raise (mkHTTPException 401 "Could not validate credentials"))) ∧
    (e = not_implemented ∨ refusal e).
Proof.
  unfold update_product, mbind, M_bind, bind.
  destruct (get_current_user_cases secret dec token w)
    as [->|(payload & email & u & _ & _ & _ & ->)].
  - exists credentials_exception. split; [done|].
    split_and!; [| |done|right; by left].
    + split; [done|]. by intros (current & ? & _).
    + split; [done|]. by intros (current & ? & _).
  - case_bool_decide as Hrole.
    + exists admin_only. split; [done|].
      split_and!; [| |done|right; by right].
      * split; [done|]. intros (current & ? & Hadmin). by simplify_eq.
      * split; [|done]. intros _. eexists. by split.
    + exists not_implemented. split; [done|].
      split_and!; [| |done|by left].
      * split; [|done]. intros _. eexists. by split.
      * split; [done|]. intros (current & ? & Hadmin). by simplify_eq.
Qed.

Lemma update_product_never_updates_witness :
  update_product "devsecret" toy_decode "p1" no_patch
    "ann@example.com/admin" shop =
    (shop,
     Raise (mkHTTPException 501 "Update not implemented in this environment")) ∧
  update_product "devsecret" toy_decode "p1" no_patch "ann@example.com" shop =
    (shop, Raise (mkHTTPException 403 "Admin only")) ∧
  update_product "devsecret" toy_decode "p1" no_patch "forged" shop =
    (shop, Raise (mkHTTPException 401 "Could not validate credentials")).
Proof.
  split_and!.
  - destruct (update_product_never_updates "devsecret" toy_decode "p1"
                no_patch "ann@example.com/admin" shop)
      as (e & -> & [_ Hadmin] & _).
    rewrite Hadmin; [done|]. eexists. split; by vm_compute.
  - destruct (update_product_never_updates "devsecret" toy_decode "p1"
                no_patch "ann@example.com" shop)
      as (e & -> & _ & [_ Hother] & _).
    rewrite Hother; [done|]. eexists. split; by vm_compute.
  - destruct (update_product_never_updates "devsecret" toy_decode "p1"
                no_patch "forged" shop)
      as (e & -> & _ & _ & [_ Hnone] & _).
    rewrite Hnone; [done|]. by vm_compute.
Defined.

(** ** Code inventory *)

Lemma insert_codes_spec now product_id codes inserted w :
  insert_codes now product_id codes inserted w =
    (mkWorld
       (mkDatabase (product (db w))
          (codekey (db w) ++ new_codes now product_id (next_oid (db w)) codes)
          (order (db w)) (user (db w))
          (next_oid (db w) + length codes)%nat)
       (effects w ++
          (Inserted "codekey" ∘ _id <$>
             new_codes now product_id (next_oid (db w)) codes)),
     Ok (inserted ++ (_id <$> new_codes now product_id (next_oid (db w)) codes))).
Proof.
  revert inserted w. induction codes as [|code codes IH]; intros inserted w.
  - simpl. unfold mret, M_ret, ret.
    rewrite !app_nil_r, Nat.add_0_r. by destruct w as [[]].
  - simpl. unfold mbind, M_bind, bind, create_document. simpl.
    rewrite IH. simpl.
    rewrite <- !app_assoc, Nat.add_succ_r. done.
Qed.

Lemma new_codes_codes now product_id first codes :
  (CodeKey.code ∘ body) <$> new_codes now product_id first codes = codes.
Proof.
  revert first. induction codes as [|code codes IH]; intros first; [done|].
  simpl. by rewrite IH.
Qed.

Lemma new_codes_stock now product_id first codes p :
  filter (unassigned_of p) (new_codes now product_id first codes) =
    if decide (product_id = p) then new_codes now product_id first codes else [].
Proof.
  revert first. induction codes as [|code codes IH]; intros first.
  - by case_decide.
  - simpl. rewrite filter_cons, IH.
    destruct (decide (product_id = p)) as [Heq|Hne].
    + by rewrite decide_True.
    + by rewrite decide_False by (by intros [? _]).
Qed.

(** An admin's [add_codes] stores one unassigned CodeKey per submitted
    code, in order and without removing duplicates, under the product
    given; it returns as many identifiers as codes, those of the new
    documents, and leaves products, orders and users untouched. *)
Theorem add_codes_appends secret now dec payload token w current :
  get_current_user secret dec token w = (w, Ok current) →
  CurrentUser.role current = "admin" →
  ∃ w' inserted added,
    add_codes secret now dec payload token w = (w', Ok inserted) ∧
    codekey (db w') = codekey (db w) ++ added ∧
    (CodeKey.code ∘ body) <$> added = AdminAddCodes.codes payload ∧
    Forall (λ d, CodeKey.product_id (body d) = AdminAddCodes.product_id payload
                 ∧ CodeKey.assigned (body d) = false
                 ∧ CodeKey.order_id (body d) = None) added ∧
    inserted = _id <$> added ∧
    length inserted = length (AdminAddCodes.codes payload) ∧
    product (db w') = product (db w) ∧
    order (db w') = order (db w) ∧
    user (db w') = user (db w).
Proof.
  intros Hrun Hadmin.
  exists (add_codes secret now dec payload token w).1,
    (_id <$> new_codes now (AdminAddCodes.product_id payload) (next_oid (db w))
               (AdminAddCodes.codes payload)),
    (new_codes now (AdminAddCodes.product_id payload) (next_oid (db w))
       (AdminAddCodes.codes payload)).
  unfold add_codes, mbind, M_bind, bind. rewrite Hrun.
  rewrite bool_decide_eq_false_2 by (by intros []).
  rewrite insert_codes_spec. simpl.
  split_and!; try done.
  - apply new_codes_codes.
  - generalize (next_oid (db w)).
    induction (AdminAddCodes.codes payload) as [|code codes IH]; intros n;
      constructor; [done | apply IH].
  - rewrite length_fmap.
    by rewrite <- (new_codes_codes now (AdminAddCodes.product_id payload)
                     (next_oid (db w)) (AdminAddCodes.codes payload)) at 2;
      rewrite length_fmap.
Qed.

Lemma add_codes_appends_witness :
  ∃ w' added,
    add_codes "devsecret" 1700000000 toy_decode
      (AdminAddCodes.mk "p2" ["DDDD"; "DDDD"]) "ann@example.com/admin" shop =
      (w', Ok ["oid10"; "oid11"]) ∧
    codekey (db w') = codekey (db shop) ++ added ∧
    (CodeKey.code ∘ body) <$> added = ["DDDD"; "DDDD"].
Proof.
  destruct (add_codes_appends "devsecret" 1700000000 toy_decode
              (AdminAddCodes.mk "p2" ["DDDD"; "DDDD"]) "ann@example.com/admin"
              shop (CurrentUser.mk "ann@example.com" "admin" "u1"))
    as (w' & inserted & added & Hrun & Hcodes & Hadded & _);
    [reflexivity | reflexivity |].
  exists w', added. split; [|by split].
  rewrite Hrun. vm_compute in Hrun. by simplify_eq.
Defined.

(** Codes an admin adds can be sold at once: after [add_codes] for a
    product, confirming an order with a single line for that product
    returns one code per unit, taken first from the stock that was there
    and then from the codes just added in the order they were submitted,
    as long as the two together cover the quantity. *)
Theorem add_codes_then_confirm secret now dec payload token w current
    confirmation o quantity :
  get_current_user secret dec token w = (w, Ok current) →
  CurrentUser.role current = "admin" →
  placed w (CheckoutConfirmRequest.order_id confirmation) o →
  Order.items (body o) =
    [CartItem.mk (AdminAddCodes.product_id payload) quantity] →
  quantity ≤ Z.of_nat (length (stock w (AdminAddCodes.product_id payload))
                       + length (AdminAddCodes.codes payload)) →
  let w' := (add_codes secret now dec payload token w).1 in
  checkout_confirm confirmation w' =
    (w', Ok (CheckoutConfirmResponse.mk
               (CheckoutConfirmRequest.order_id confirmation)
               (take (Z.to_nat quantity)
                  (((CodeKey.code ∘ body) <$>
                      stock w (AdminAddCodes.product_id payload))
                   ++ AdminAddCodes.codes payload)))).
Proof.
  intros Hrun Hadmin Hplaced Hitems Henough w'.
  assert (order (db w') = order (db w) ∧
          ∀ p, stock w' p = stock w p ++
                 filter (unassigned_of p)
                   (new_codes now (AdminAddCodes.product_id payload)
                      (next_oid (db w)) (AdminAddCodes.codes payload)))
    as [Horders Hstock].
  { unfold w', add_codes, mbind, M_bind, bind. rewrite Hrun.
    rewrite bool_decide_eq_false_2 by (by intros []).
    rewrite insert_codes_spec. simpl. split; [done|].
    intros p. unfold stock. simpl. by rewrite filter_app. }
  rewrite checkout_confirm_spec.
  destruct (filter_placed _ _ _ Hplaced) as [rest Hfound].
  rewrite Horders, Hfound, Hitems.
  assert (stock w' (AdminAddCodes.product_id payload) =
          stock w (AdminAddCodes.product_id payload) ++
            new_codes now (AdminAddCodes.product_id payload)
              (next_oid (db w)) (AdminAddCodes.codes payload)) as Hnow.
  { by rewrite Hstock, new_codes_stock, decide_True. }
  rewrite decide_True.
  - unfold allocation, codes_for. simpl. rewrite app_nil_r, Hnow.
    by rewrite fmap_take, fmap_app, new_codes_codes.
  - repeat constructor. unfold sufficient. simpl. rewrite Hnow.
    rewrite length_app.
    rewrite <- (new_codes_codes now (AdminAddCodes.product_id payload)
                  (next_oid (db w)) (AdminAddCodes.codes payload)) in Henough.
    by rewrite length_fmap in Henough.
Qed.

Lemma add_codes_then_confirm_witness :
  (checkout_confirm
     (confirm "big")
     (add_codes "devsecret" 1700000000 toy_decode
        (AdminAddCodes.mk "p1" ["EEEE"; "FFFF"]) "ann@example.com/admin"
        (mkWorld (mkDatabase (product shop_db) (codekey shop_db)
                    [mkDoc "big" (sample_order [CartItem.mk "p1" 4] 7996)]
                    (user shop_db) 10) [])).1).2 =
    Ok (CheckoutConfirmResponse.mk "big" ["AAAA"; "BBBB"; "EEEE"; "FFFF"]).
Proof.
  set (w := mkWorld _ _).
  rewrite (add_codes_then_confirm "devsecret" 1700000000 toy_decode
             (AdminAddCodes.mk "p1" ["EEEE"; "FFFF"]) "ann@example.com/admin" w
             (CurrentUser.mk "ann@example.com" "admin" "u1") (confirm "big")
             (mkDoc "big" (sample_order [CartItem.mk "p1" 4] 7996)) 4).
  - reflexivity.
  - reflexivity.
  - reflexivity.
  - by exists [], [].
  - reflexivity.
  - by vm_compute.
Defined.

(** Nobody becomes an admin by registering: provided the token codec
    returns the claims it was given, the token [register] hands to a new
    user authenticates as that user with the role ["user"], and with it
    [create_product], [add_codes] and [update_product] are all refused with
    403 "Admin only" and write nothing. *)
Theorem registered_user_is_no_admin secret now enc dec hash payload w
    product codes product_id patch :
  unknown w (UserRegister.email payload) →
  dec (enc (issued now (UserRegister.email payload) "user") secret "HS256")
      secret [JWT_ALG] =
    Some (issued now (UserRegister.email payload) "user") →
  ∃ w' token id,
    register secret now enc hash payload w =
      (w', Ok (TokenResponse.mk token "bearer")) ∧
    get_current_user secret dec token w' =
      (w', Ok (CurrentUser.mk (UserRegister.email payload) "user" id)) ∧
    create_product secret now dec product token w' = (w', Raise admin_only) ∧
    add_codes secret now dec codes token w' = (w', Raise admin_only) ∧
    update_product secret dec product_id patch token w' = (w', Raise admin_only).
Proof.
  intros Hnone Hcodec.
  pose proof (registered_after_register secret now enc hash payload w Hnone)
    as Hnew.
  pose proof (register_unknown secret now enc hash payload w Hnone) as Hrun.
  rewrite Hrun in Hnew. simpl in Hnew.
  eexists _, _, _. split; [exact Hrun|].
  pose proof (get_current_user_registered _ _ _ _ _ _ _ Hcodec eq_refl Hnew)
    as Hcurrent.
  split; [exact Hcurrent|].
  unfold create_product, add_codes, update_product, mbind, M_bind, bind.
  by rewrite Hcurrent.
Qed.

Lemma registered_user_is_no_admin_witness :
  ∃ w' token,
    register "devsecret" 1700000000 encode_one toy_hash bob shop =
      (w', Ok (TokenResponse.mk token "bearer")) ∧
    add_codes "devsecret" 1700000000
      (one_token (issued 1700000000 "bob@example.com" "user"))
      (AdminAddCodes.mk "p1" ["ZZZZ"]) token w' =
      (w', Raise (mkHTTPException 403 "Admin only")).
Proof.
  destruct (registered_user_is_no_admin "devsecret" 1700000000 encode_one
              (one_token (issued 1700000000 "bob@example.com" "user"))
              toy_hash bob shop (sample_product "Pickaxe" 800)
              (AdminAddCodes.mk "p1" ["ZZZZ"]) "p1" no_patch)
    as (w' & token & id & Hrun & _ & _ & Hadd & _).
  - repeat constructor; by vm_compute.
  - reflexivity.
  - exists w', token. split; [exact Hrun | exact Hadd].
Defined.

(** ** The catalogue and the order list *)

Lemma page_spec {A} (P : A → Prop) `{∀ x, Decision (P x)} (n : nat) (l : list A) :
  (length (take n (filter P l)) ≤ n)%nat ∧
  take n (filter P l) `sublist_of` l ∧
  Forall P (take n (filter P l)) ∧
  ∀ x, x ∈ l → P x →
       x ∈ take n (filter P l) ∨ length (take n (filter P l)) = n.
Proof.
  split_and!.
  - rewrite length_take. lia.
  - etrans; [apply sublist_take | apply sublist_filter].
  - apply Forall_forall. intros x Hx.
    by apply subseteq_take, list_elem_of_filter in Hx as [? _].
  - intros x Hx HP.
    destruct (decide (length (filter P l) ≤ n)%nat) as [Hfew|Hmany].
    + left. rewrite take_ge by done. by apply list_elem_of_filter.
    + right. apply length_take_le. lia.
Qed.

Lemma matches_wanted game reward_type min_price max_price d :
  matches (product_query game reward_type min_price max_price) d ↔
  wanted game reward_type min_price max_price d.
Proof.
  unfold matches, wanted, product_query, truthy.
  rewrite !forallb_app. simpl.
  destruct game as [g|], reward_type as [t|], min_price as [low|],
    max_price as [high|];
    repeat match goal with
           | |- context [bool_decide (?x = EmptyString)] =>
               destruct (decide (x = EmptyString));
               [rewrite (bool_decide_eq_true_2 (x = EmptyString)) by done
               |rewrite (bool_decide_eq_false_2 (x = EmptyString)) by done]
           end; simpl;
    rewrite ?andb_true_r, ?andb_true_iff, ?bool_decide_eq_true;
    (split; [intros; split_and!; intros; simplify_eq; intuition
            |intros (? & Hg & Ht & Hlow & Hhigh); split_and?; eauto]).
Qed.

(** A catalogue search returns at most 100 products, in store order, all
    of them active and meeting the filters given (an empty game or reward
    type counts as not given, price bounds are inclusive); a stored product
    that meets them is in the answer unless the answer is full; nothing is
    written. *)
Theorem list_products_sound game reward_type min_price max_price w :
  ∃ docs,
    list_products game reward_type min_price max_price w = (w, Ok docs) ∧
    (length docs ≤ 100)%nat ∧
    docs `sublist_of` product (db w) ∧
    Forall (wanted game reward_type min_price max_price) docs ∧
    ∀ d, d ∈ product (db w) →
         wanted game reward_type min_price max_price d →
         d ∈ docs ∨ length docs = 100%nat.
Proof.
  eexists. split; [reflexivity|].
  destruct (page_spec
              (matches (product_query game reward_type min_price max_price))
              100 (product (db w))) as (Hlen & Hsub & Hall & Hfull).
  split_and!; [done..| |].
  - eapply Forall_impl; [exact Hall|]. intros d. apply matches_wanted.
  - intros d Hd Hwanted. apply Hfull; [done|]. by apply matches_wanted.
Qed.

(** [get_product] answers 404 "Product not found" when no product is
    stored under the identifier, and changes nothing. *)
Theorem get_product_not_found product_id w :
  Forall (λ d, ¬ by_oid product_id d) (product (db w)) →
  get_product product_id w =
    (w, Raise (mkHTTPException 404 "Product not found")).
Proof.
  intros Hnone. unfold get_product, mbind, M_bind, bind.
  by rewrite (get_documents_none product_c _ 1 w Hnone).
Qed.

Lemma get_product_not_found_witness :
  get_product "p9" shop =
    (shop, Raise (mkHTTPException 404 "Product not found")).
Proof.
  apply (get_product_not_found "p9" shop).
  repeat constructor; by vm_compute.
Defined.

(** A retired product stays reachable by its identifier: [get_product]
    does not look at the [active] flag and returns an inactive product,
    while no catalogue search, whatever its filters, ever lists it. *)
Theorem retired_product_served_not_listed product_id w d
    game reward_type min_price max_price :
  first_match (by_oid product_id) (product (db w)) d →
  Product.active (body d) = false →
  get_product product_id w = (w, Ok d) ∧
  ∃ docs,
    list_products game reward_type min_price max_price w = (w, Ok docs) ∧
    d ∉ docs.
Proof.
  intros Hd Hretired. split.
  - unfold get_product, mbind, M_bind, bind.
    by rewrite (get_documents_first product_c _ w d Hd).
  - destruct (page_spec
                (matches (product_query game reward_type min_price max_price))
                100 (product (db w))) as (_ & _ & Hall & _).
    eexists. split; [reflexivity|]. intros Hin.
    apply (proj1 (Forall_forall _ _) Hall), matches_wanted in Hin
      as [Hactive _].
    congruence.
Qed.

Lemma list_products_sound_witness :
  list_products (Some "Fortnite") (Some EmptyString) (Some 600) None
    shop_with_retired =
    (shop_with_retired, Ok [mkDoc "p1" (sample_product "Renegade" 1999)]).
Proof.
  destruct (list_products_sound (Some "Fortnite") (Some EmptyString) (Some 600)
              None shop_with_retired) as (docs & Hrun & _).
  rewrite Hrun. vm_compute in Hrun. by simplify_eq.
Defined.

Lemma retired_product_served_not_listed_witness :
  (get_product "p3" shop_with_retired).2 =
    Ok (mkDoc "p3" (Product.mk "Old skin" "Roblox" "skin" EmptyString []
                      300 "usd" false [] None None)) ∧
  ∃ docs,
    list_products (Some "Roblox") None None None shop_with_retired =
      (shop_with_retired, Ok docs) ∧
    mkDoc "p3" (Product.mk "Old skin" "Roblox" "skin" EmptyString []
                  300 "usd" false [] None None) ∉ docs.
Proof.
  destruct (retired_product_served_not_listed "p3" shop_with_retired
              (mkDoc "p3" (Product.mk "Old skin" "Roblox" "skin" EmptyString []
                             300 "usd" false [] None None))
              (Some "Roblox") None None None) as [Hget Hlist].
  - exists (product shop_db), []. split; [reflexivity|].
    split; [reflexivity|]. repeat constructor; by vm_compute.
  - reflexivity.
  - split; [by rewrite Hget | exact Hlist].
Defined.

(** A product an admin creates can be fetched back: under the identifier
    [create_product] returns, provided no product had it before,
    [get_product] returns the submitted product with both timestamps set by
    the server to the time of creation, whatever timestamps were sent. *)
Theorem create_then_get_product secret now dec product token w current :
  get_current_user secret dec token w = (w, Ok current) →
  CurrentUser.role current = "admin" →
  Forall (λ d, ¬ by_oid (next_id w) d) (Storefront.product (db w)) →
  ∃ w' id,
    create_product secret now dec product token w = (w', Ok id) ∧
    get_product id w' =
      (w', Ok (mkDoc id
                 (Product.mk (Product.title product) (Product.game product)
                    (Product.reward_type product) (Product.description product)
                    (Product.images product) (Product.price_cents product)
                    (Product.currency product) (Product.active product)
                    (Product.tags product) (Some now) (Some now)))) ∧
    codekey (db w') = codekey (db w) ∧
    order (db w') = order (db w) ∧
    user (db w') = user (db w).
Proof.
  intros Hrun Hadmin Hfresh.
  eexists _, _. split.
  - unfold create_product, mbind, M_bind, bind. rewrite Hrun.
    rewrite bool_decide_eq_false_2 by (by intros []).
    unfold create_document, mret, M_ret, ret. simpl. reflexivity.
  - split; [|done].
    unfold get_product, get_documents, mbind, M_bind, bind. simpl.
    rewrite filter_app, (filter_none _ _ Hfresh), filter_cons_True by done.
    reflexivity.
Qed.

Lemma create_then_get_product_witness :
  ∃ w',
    create_product "devsecret" 1700000000 toy_decode
      (sample_product "Pickaxe" 800) "ann@example.com/admin" shop =
      (w', Ok "oid10") ∧
    (get_product "oid10" w').2 =
      Ok (mkDoc "oid10"
            (Product.mk "Pickaxe" "Fortnite" "skin" EmptyString [] 800 "usd"
               true [] (Some 1700000000) (Some 1700000000))).
Proof.
  destruct (create_then_get_product "devsecret" 1700000000 toy_decode
              (sample_product "Pickaxe" 800) "ann@example.com/admin" shop
              (CurrentUser.mk "ann@example.com" "admin" "u1"))
    as (w' & id & Hcreate & Hget & _).
  - reflexivity.
  - reflexivity.
  - repeat constructor; by vm_compute.
  - assert (id = "oid10") as ->.
    { vm_compute in Hcreate. by simplify_eq. }
    exists w'. split; [exact Hcreate|]. by rewrite Hget.
Defined.

(** [list_orders] shows a user only their own orders: for an authenticated
    user whose claimed role is not ["admin"] it returns at most 50 orders,
    in store order, every one of them placed under the email of the token,
    and each such order unless the answer is full; for an admin it returns
    the first 50 orders of the store whoever placed them; nothing is
    written. *)
Theorem list_orders_own secret dec token w current :
  get_current_user secret dec token w = (w, Ok current) →
  ∃ docs,
    list_orders secret dec token w = (w, Ok docs) ∧
    (length docs ≤ 50)%nat ∧
    docs `sublist_of` order (db w) ∧
    (CurrentUser.role current ≠ "admin" →
     Forall (λ d, Order.email (body d) = CurrentUser.email current) docs ∧
     ∀ d, d ∈ order (db w) → Order.email (body d) = CurrentUser.email current →
          d ∈ docs ∨ length docs = 50%nat) ∧
    (CurrentUser.role current = "admin" → docs = take 50 (order (db w))).
Proof.
  intros Hrun. unfold list_orders, mbind, M_bind, bind. rewrite Hrun.
  case_bool_decide as Hrole.
  - destruct (page_spec (order_of (CurrentUser.email current)) 50
                (order (db w))) as (Hlen & Hsub & Hall & Hfull).
    eexists. split; [reflexivity|]. by split_and!.
  - destruct (page_spec (@any_doc Order.t) 50 (order (db w)))
      as (Hlen & Hsub & _ & _).
    eexists. split; [reflexivity|]. split_and!; [done..| |].
    + intros Hno. by destruct Hrole.
    + intros _. simpl. f_equal. clear.
      induction (order (db w)) as [|d l IH]; [done|].
      rewrite filter_cons_True by done. by rewrite IH.
Qed.

Lemma list_orders_own_witness :
  ∃ docs,
    list_orders "devsecret" toy_decode "ann@example.com"
      (mkWorld
         (mkDatabase (product shop_db) (codekey shop_db)
            (order shop_db ++
               [mkDoc "o5" (Order.mk None "zoe@example.com" None
                              [CartItem.mk "p2" 1] 500 500 "usd" None
                              "pending" [] None None)])
            (user shop_db) 10) []) =
      (mkWorld
         (mkDatabase (product shop_db) (codekey shop_db)
            (order shop_db ++
               [mkDoc "o5" (Order.mk None "zoe@example.com" None
                              [CartItem.mk "p2" 1] 500 500 "usd" None
                              "pending" [] None None)])
            (user shop_db) 10) [],
       Ok docs) ∧
    _id <$> docs = ["o1"; "o2"; "o3"; "o4"].
Proof.
  set (w := mkWorld _ _).
  destruct (list_orders_own "devsecret" toy_decode "ann@example.com" w
              (CurrentUser.mk "ann@example.com" "user" "u1"))
    as (docs & Hrun & _); [reflexivity|].
  exists docs. split; [exact Hrun|].
  vm_compute in Hrun. by simplify_eq.
Defined.

End StorefrontRestSpec.

(** * Properties of the rest of the game-stat proxy *)

Module GameStatsRestSpec.
Import GameStats GameStatsTerms GameStatsRest GameStatsRestTerms.
Import GameStatsSpec.

(** ** The OSRS lookup, continued *)

Lemma parse_skills_other lines key :
  key ∉ skills → parse_skills lines !! key = None.
Proof.
  intros Hkey. unfold parse_skills.
  rewrite (fill_other (λ i, default default_entry (parse_line lines i)));
    [apply lookup_empty|].
  by change ((imap pair skills).*2) with skills.
Qed.

Lemma parse_skills_dom lines :
  dom (parse_skills lines) = list_to_set skills.
Proof.
  apply set_eq. intros key.
  rewrite elem_of_dom, elem_of_list_to_set. split.
  - intros [entry Hentry]. destruct (decide (key ∈ skills)) as [|Hno]; [done|].
    by rewrite parse_skills_other in Hentry.
  - intros Hkey. apply list_elem_of_lookup in Hkey as [i Hi].
    rewrite (parse_skills_lookup _ i) by done. eauto.
Qed.

(** A successful OSRS lookup always answers with exactly the 24 skills of
    the hiscore table, under their names, however many lines the page has
    and whatever they contain; the username in the answer is the one
    submitted with the surrounding white space removed. *)
Theorem osrs_answer_has_24_skills requests_get quote message payload w r :
  let username := strip (username payload) in
  username ≠ EmptyString →
  requests_get (hiscore_url +:+ quote username) = Returned r →
  status_code r ≠ 404 →
  ¬ error_status r →
  ∃ w' stats,
    get_osrs_stats requests_get quote message payload w = (w', Ok stats) ∧
    stats_username stats = username ∧
    size (stats_skills stats) = 24%nat ∧
    ∀ key, is_Some (stats_skills stats !! key) ↔ key ∈ skills.
Proof.
  intros username Hname Hget H404 Herr.
  rewrite get_osrs_stats_spec by done. fold username. rewrite Hget.
  rewrite !decide_False by done.
  eexists _, _. split; [done|]. simpl. split; [done|]. split.
  - rewrite <- size_dom, parse_skills_dom.
    rewrite size_list_to_set by apply skills_distinct. done.
  - intros key. by rewrite <- elem_of_dom, parse_skills_dom, elem_of_list_to_set.
Qed.

Lemma osrs_answer_has_24_skills_witness :
  ∃ w' stats,
    get_osrs_stats (serves 200 EmptyString) id error_text
      (mkOSRSSearch "  zezima ") empty_log = (w', Ok stats) ∧
    stats_username stats = "zezima" ∧
    size (stats_skills stats) = 24%nat.
Proof.
  destruct (osrs_answer_has_24_skills (serves 200 EmptyString) id error_text
              (mkOSRSSearch "  zezima ") empty_log (mkResponse 200 EmptyString))
    as (w' & stats & Hrun & Hname & Hsize & _);
    [by vm_compute | reflexivity | by vm_compute
    | unfold error_status; simpl; lia |].
  exists w', stats. split; [exact Hrun|]. split; [|exact Hsize].
  rewrite Hname. by vm_compute.
Defined.

(** Search logging is best effort: what [get_osrs_stats] answers does not
    depend on the store at all, and when the store cannot be reached the
    lookup still answers as it would have and leaves the store as it
    was. *)
Theorem osrs_answer_ignores_store requests_get quote message payload w1 w2 :
  (get_osrs_stats requests_get quote message payload w1).2 =
    (get_osrs_stats requests_get quote message payload w2).2 ∧
  (reachable w1 = false →
   (get_osrs_stats requests_get quote message payload w1).1 = w1).
Proof.
  destruct (decide (strip (username payload) = EmptyString)) as [Hblank|Hname].
  - by rewrite !get_osrs_stats_blank by done.
  - rewrite !get_osrs_stats_spec by done. unfold logged.
    split.
    + destruct (requests_get _) as [r|e]; [|done].
      by repeat case_decide.
    + intros ->. destruct (requests_get _) as [r|e]; [|done].
      by repeat case_decide.
Qed.

(** ** The character search *)

Ltac run :=
  unfold try_except_any, try_pass, raise_for_status, create_document,
    dict_get, iterate, mbind, mret, M_bind, M_ret, bind, ret, raise.

Lemma trim_all_objects objs w :
  trim_all (JObject <$> objs) w = (w, Ok (character_of <$> objs)).
Proof.
  induction objs as [|fields objs IH]; [done|].
  simpl. unfold trim. run. simpl. fold (JObject <$> objs).
  by rewrite IH.
Qed.

Lemma trim_all_stops objs bad rest w :
  ¬ is_object bad →
  trim_all ((JObject <$> objs) ++ bad :: rest) w =
    (w, Raise (Exception (no_get bad))).
Proof.
  intros Hbad. induction objs as [|fields objs IH].
  - simpl. unfold trim. run. by destruct bad; [..|destruct Hbad].
  - simpl. unfold trim. run. simpl.
    fold (JObject <$> objs). fold (trim_all ((JObject <$> objs) ++ bad :: rest)).
    by rewrite IH.
Qed.

(** A character search that goes through answers with at most ten
    characters, the first ten the service returned and in its order, each
    reduced to its ID, name, server, avatar and data centre with [null] for
    a field the service left out; a missing ["Results"] key gives an empty
    list; one success entry is added to the search log. *)
Theorem ffxiv_search_first_ten requests_get message json_loads payload w r
    fields objs :
  let name := strip (name payload) in
  let world := strip (default EmptyString (world payload)) in
  let params := search_params name world in
  name ≠ EmptyString →
  reachable w = true →
  requests_get character_search_url params = Returned r →
  ¬ error_status r →
  json_loads (text r) = Returned (JObject fields) →
  default (JArray []) (assoc "Results" fields) = JArray (JObject <$> objs) →
  search_ffxiv_character requests_get message json_loads payload w =
    (mkDatabase (searchlog w ++ [ffxiv_entry params true None]) true,
     Ok (mkFfxivResults "ffxiv" (character_of <$> take 10 objs))).
Proof.
  intros name world params Hname Hup Hget Hstatus Hjson Hresults.
  unfold search_ffxiv_character. fold name world params.
  rewrite bool_decide_eq_false_2 by done.
  run. rewrite Hget. unfold error_status in Hstatus.
  rewrite bool_decide_eq_false_2 by done.
  rewrite Hjson, Hresults, Hup. simpl.
  rewrite trim_all_objects. by rewrite fmap_take.
Qed.

Lemma ffxiv_search_first_ten_witness :
  ∃ answer,
    search_ffxiv_character (lodestone JNull) error_text
      (decodes_to (JObject [("Results", JArray (JObject <$> twelve_heroes))]))
      (mkFFXIVSearch " Hero " (Some "Odin")) empty_log =
      (mkDatabase
         [ffxiv_entry (search_params "Hero" "Odin") true None] true,
       Ok answer) ∧
    character_id <$> ffxiv_results answer =
      JNumber <$> [1; 2; 3; 4; 5; 6; 7; 8; 9; 10] ∧
    character_avatar <$> ffxiv_results answer = replicate 10 JNull.
Proof.
  eexists. split.
  - apply (ffxiv_search_first_ten (lodestone JNull) error_text
             (decodes_to (JObject [("Results", JArray (JObject <$> twelve_heroes))]))
             (mkFFXIVSearch " Hero " (Some "Odin")) empty_log
             (mkResponse 200 "{}")
             [("Results", JArray (JObject <$> twelve_heroes))] twelve_heroes).
    + by vm_compute.
    + reflexivity.
    + reflexivity.
    + unfold error_status; simpl; lia.
    + reflexivity.
    + reflexivity.
  - split; reflexivity.
Defined.

(** Every failed character search is logged: for a non-blank name and a
    reachable store, a transport error, any error status (404 included)
    and a body that is not JSON all end in 500 "Failed to search FFXIV
    characters" with exactly one failure entry added to the search log,
    its note the error text cut to 200 characters. *)
Theorem ffxiv_failure_logged requests_get message json_loads payload w :
  let name := strip (name payload) in
  let world := strip (default EmptyString (world payload)) in
  let params := search_params name world in
  let outcome :=
    search_ffxiv_character requests_get message json_loads payload w in
  let failed_with text :=
    outcome =
      (mkDatabase
         (searchlog w ++ [ffxiv_entry params false (Some (truncate 200 text))])
         true,
       Raise search_failed) in
  name ≠ EmptyString →
  reachable w = true →
  (∀ e, requests_get character_search_url params = Raised e → failed_with e) ∧
  (∀ r, requests_get character_search_url params = Returned r →
        error_status r → failed_with (message r)) ∧
  (∀ r e, requests_get character_search_url params = Returned r →
          ¬ error_status r → json_loads (text r) = Raised e → failed_with e).
Proof.
  intros name world params outcome failed_with Hname Hup.
  unfold failed_with, outcome, search_ffxiv_character. fold name world params.
  rewrite bool_decide_eq_false_2 by done.
  run. split_and!.
  - intros e ->. simpl. by rewrite Hup.
  - intros r -> Herr. unfold error_status in Herr.
    rewrite bool_decide_eq_true_2 by done. simpl. by rewrite Hup.
  - intros r e -> Herr ->. unfold error_status in Herr.
    rewrite bool_decide_eq_false_2 by done. simpl. by rewrite Hup.
Qed.

Lemma ffxiv_failure_logged_witness :
  search_ffxiv_character (λ _ _, Returned (mkResponse 404 EmptyString))
    error_text (decodes_to JNull) (mkFFXIVSearch "Hero" None) empty_log =
    (mkDatabase
       [ffxiv_entry (search_params "Hero" EmptyString) false
          (Some "upstream error")] true,
     Raise (HTTPException 500 "Failed to search FFXIV characters")).
Proof.
  destruct (ffxiv_failure_logged (λ _ _, Returned (mkResponse 404 EmptyString))
              error_text (decodes_to JNull) (mkFFXIVSearch "Hero" None)
              empty_log) as (_ & Hstatus & _).
  - by vm_compute.
  - reflexivity.
  - apply (Hstatus (mkResponse 404 EmptyString)); [reflexivity|].
    unfold error_status; simpl; lia.
Defined.

(** A result that is not an object spoils the search after it was logged
    as a success: when the service's list holds an element without fields
    (a number, a string, [null], a list), the search ends in 500, and the
    search log receives the success entry written before the results were
    read and then the failure entry, two entries for one search. *)
Theorem ffxiv_bad_result_logged_twice requests_get message json_loads payload
    w r fields objs bad rest :
  let name := strip (name payload) in
  let world := strip (default EmptyString (world payload)) in
  let params := search_params name world in
  name ≠ EmptyString →
  reachable w = true →
  requests_get character_search_url params = Returned r →
  ¬ error_status r →
  json_loads (text r) = Returned (JObject fields) →
  assoc "Results" fields = Some (JArray ((JObject <$> objs) ++ bad :: rest)) →
  ¬ is_object bad →
  search_ffxiv_character requests_get message json_loads payload w =
    (mkDatabase
       (searchlog w ++
          [ffxiv_entry params true None;
           ffxiv_entry params false (Some (truncate 200 (no_get bad)))])
       true,
     Raise search_failed).
Proof.
  intros name world params Hname Hup Hget Hstatus Hjson Hresults Hbad.
  unfold search_ffxiv_character. fold name world params.
  rewrite bool_decide_eq_false_2 by done.
  run. rewrite Hget. unfold error_status in Hstatus.
  rewrite bool_decide_eq_false_2 by done.
  rewrite Hjson, Hresults, Hup. simpl.
  rewrite (trim_all_stops _ _ _ _ Hbad). simpl.
  by rewrite <- app_assoc.
Qed.

Lemma ffxiv_bad_result_logged_twice_witness :
  search_ffxiv_character (lodestone JNull) error_text
    (decodes_to (JObject [("Results", JArray [JObject (hero 1); JNumber 7])]))
    (mkFFXIVSearch "Hero" None) empty_log =
    (mkDatabase
       [ffxiv_entry (search_params "Hero" EmptyString) true None;
        ffxiv_entry (search_params "Hero" EmptyString) false
          (Some "'int' object has no attribute 'get'")] true,
     Raise (HTTPException 500 "Failed to search FFXIV characters")).
Proof.
  apply (ffxiv_bad_result_logged_twice (lodestone JNull) error_text
           (decodes_to (JObject [("Results", JArray [JObject (hero 1); JNumber 7])]))
           (mkFFXIVSearch "Hero" None) empty_log (mkResponse 200 "{}")
           [("Results", JArray [JObject (hero 1); JNumber 7])]
           [hero 1] (JNumber 7) []).
  - by vm_compute.
  - reflexivity.
  - reflexivity.
  - unfold error_status; simpl; lia.
  - reflexivity.
  - reflexivity.
  - intros [].
Defined.

(** ** Reading a hiscore line back *)

Lemma rev_app_rev_app s1 s2 s3 :
  String.rev_app (String.rev_app s1 s2) s3 = String.rev_app s2 (s1 +:+ s3).
Proof.
  revert s2. induction s1 as [|c s1 IH]; intros s2; [done|].
  simpl. by rewrite IH.
Qed.

Lemma rev_rev s : String.rev (String.rev s) = s.
Proof.
  unfold String.rev. rewrite rev_app_rev_app. simpl.
  induction s as [|c s IH]; [done|].
  change (String c (s +:+ EmptyString) = String c s). by f_equal.
Qed.

Lemma plain_char_spec c :
  plain_char c = true → int_isspace c = false ∧ c ≠ ","%char.
Proof.
  destruct c as [[] [] [] [] [] [] [] []]; intros Hc; try done;
    by vm_compute in Hc.
Qed.

Lemma plain_cons c s : plain (String c s) = true ↔ plain_char c = true ∧ plain s = true.
Proof. simpl. by rewrite andb_true_iff. Qed.

Lemma int_lstrip_plain s : plain s = true → int_lstrip s = s.
Proof.
  destruct s as [|c s]; [done|]. intros [Hc _]%plain_cons.
  simpl. by destruct (plain_char_spec c Hc) as [-> _].
Qed.

Lemma plain_rev_app s1 s2 :
  plain s1 = true → plain s2 = true → plain (String.rev_app s1 s2) = true.
Proof.
  revert s2. induction s1 as [|c s1 IH]; intros s2 H1 H2; [done|].
  apply plain_cons in H1 as [Hc H1]. simpl. apply IH; [done|].
  by apply plain_cons.
Qed.

Lemma int_strip_plain s : plain s = true → int_strip s = s.
Proof.
  intros Hs. unfold int_strip. rewrite (int_lstrip_plain s Hs).
  rewrite int_lstrip_plain; [apply rev_rev|].
  by apply plain_rev_app.
Qed.

Lemma split_plain s rest :
  plain s = true →
  split ","%char (s +:+ String ","%char rest) = s :: split ","%char rest.
Proof.
  induction s as [|c s IH]; intros Hs.
  - reflexivity.
  - apply plain_cons in Hs as [Hc Hs].
    change (String c s +:+ String ","%char rest)
      with (String c (s +:+ String ","%char rest)).
    simpl. destruct (plain_char_spec c Hc) as [_ Hcomma].
    rewrite decide_False by done. by rewrite IH.
Qed.

Lemma split_plain_end s : plain s = true → split ","%char s = [s].
Proof.
  induction s as [|c s IH]; intros Hs; [done|].
  apply plain_cons in Hs as [Hc Hs]. simpl.
  destruct (plain_char_spec c Hc) as [_ Hcomma].
  rewrite decide_False by done. by rewrite IH.
Qed.

Lemma digit_pretty_N_char m :
  (m < 10)%N → digit (pretty_N_char m) = Some (Z.of_N m).
Proof.
  intros Hm.
  assert (m = 0 ∨ m = 1 ∨ m = 2 ∨ m = 3 ∨ m = 4 ∨ m = 5 ∨ m = 6 ∨ m = 7
          ∨ m = 8 ∨ m = 9)%N as Hcases by lia.
  by repeat destruct Hcases as [->|Hcases]; [..|subst m].
Qed.

Lemma plain_pretty_N_char m : (m < 10)%N → plain_char (pretty_N_char m) = true.
Proof.
  intros Hm. unfold plain_char. by rewrite digit_pretty_N_char.
Qed.

Lemma plain_pretty_N_go x s :
  plain s = true → plain (pretty_N_go x s) = true.
Proof.
  revert s. induction (N.lt_wf_0 x) as [x _ IH]; intros s Hs.
  destruct (decide (x = 0)%N) as [->|Hx]; [done|].
  rewrite pretty_N_go_step by lia.
  apply IH; [apply N.div_lt; lia|].
  apply plain_cons. split; [|done].
  apply plain_pretty_N_char, N.mod_lt. lia.
Qed.

Lemma pretty_N_go_head x s :
  (0 < x)%N →
  ∃ c s', pretty_N_go x s = String c s' ∧ is_Some (digit c).
Proof.
  revert s. induction (N.lt_wf_0 x) as [x _ IH]; intros s Hx.
  rewrite pretty_N_go_step by done.
  destruct (decide (x `div` 10 = 0)%N) as [Hsmall|Hbig].
  - rewrite Hsmall, pretty_N_go_0. eexists _, _. split; [done|].
    rewrite digit_pretty_N_char by (apply N.mod_lt; lia). eauto.
  - apply IH; [apply N.div_lt; lia | by apply N.neq_0_lt_0].
Qed.

(** The decimal form of a positive [x] has some [k] digits, no more than
    its size calls for, and reads as [x]. *)
Lemma pretty_N_go_digits x :
  (0 < x)%N →
  ∃ k : nat,
    10 ^ Z.of_nat k ≤ 10 * Z.of_N x ∧
    (∀ s, count_digits (pretty_N_go x s) = (N.of_nat k + count_digits s)%N) ∧
    ∀ s after_digit acc,
      int_digits (pretty_N_go x s) after_digit acc =
        int_digits s true (acc * 10 ^ Z.of_nat k + Z.of_N x).
Proof.
  induction (N.lt_wf_0 x) as [x _ IH]; intros Hx.
  assert (x `mod` 10 < 10)%N as Hmod by (apply N.mod_lt; lia).
  pose proof (N.div_mod x 10 ltac:(lia)) as Hdiv.
  destruct (decide (x `div` 10 = 0)%N) as [Hsmall|Hbig].
  - exists 1%nat. split_and!.
    + change (10 ^ Z.of_nat 1) with 10. lia.
    + intros s. rewrite pretty_N_go_step, Hsmall, pretty_N_go_0 by done.
      simpl. by rewrite digit_pretty_N_char.
    + intros s b acc.
      rewrite pretty_N_go_step, Hsmall, pretty_N_go_0 by done. simpl.
      rewrite digit_pretty_N_char by done. f_equal.
      change (10 ^ Z.of_nat 1) with 10. lia.
  - destruct (IH (x `div` 10)%N) as (k & Hsize & Hcount & Hvalue);
      [apply N.div_lt; lia | by apply N.neq_0_lt_0 |].
    exists (S k). split_and!.
    + rewrite Nat2Z.inj_succ, Z.pow_succ_r by lia.
      clear -Hsize Hdiv. set (q := (x `div` 10)%N) in *.
      set (m := (x `mod` 10)%N) in *. set (P := 10 ^ Z.of_nat k) in *. lia.
    + intros s. rewrite pretty_N_go_step, Hcount by done. simpl.
      rewrite digit_pretty_N_char by done. lia.
    + intros s b acc.
      rewrite pretty_N_go_step, Hvalue by done. simpl.
      rewrite digit_pretty_N_char by done. f_equal.
      rewrite Nat2Z.inj_succ, Z.pow_succ_r by lia. lia.
Qed.

Lemma int_literal_pretty_N_go p :
  Z.pos p < int_bound →
  int_literal (pretty_N_go (N.pos p) EmptyString) = Some (Z.pos p).
Proof.
  intros Hbound.
  destruct (pretty_N_go_digits (N.pos p)) as (k & Hsize & Hcount & Hvalue);
    [done|].
  assert (Z.of_nat k < Z.succ 4300) as Hk.
  { apply (Z.pow_lt_mono_r_iff 10); [lia..|].
    rewrite Z.pow_succ_r by lia. unfold int_bound in Hbound.
    change (Z.of_N max_str_digits) with 4300 in Hbound.
    change (Z.of_N (N.pos p)) with (Z.pos p) in Hsize.
    eapply Z.le_lt_trans; [exact Hsize|].
    by apply Z.mul_lt_mono_pos_l. }
  unfold int_literal. rewrite Hcount, Hvalue.
  rewrite bool_decide_eq_false_2; [done|].
  unfold max_str_digits. simpl count_digits. lia.
Qed.

Lemma int_unsigned s :
  (∃ c s', s = String c s' ∧ is_Some (digit c)) →
  int_strip s = s → int s = int_literal s.
Proof.
  intros (c & s' & -> & [d Hd]) Hstrip. unfold int. rewrite Hstrip.
  destruct c as [[] [] [] [] [] [] [] []]; try done; by vm_compute in Hd.
Qed.

Lemma plain_pretty (z : Z) : plain (pretty z) = true.
Proof.
  destruct z as [|p|p]; [done|..].
  - unfold pretty, pretty_Z, pretty, pretty_positive, pretty, pretty_N.
    rewrite decide_False by done. by apply plain_pretty_N_go.
  - unfold pretty, pretty_Z, pretty, pretty_positive, pretty, pretty_N.
    rewrite decide_False by done. simpl. by apply plain_pretty_N_go.
Qed.

Lemma int_pretty (z : Z) : Z.abs z < int_bound → int (pretty z) = Some z.
Proof.
  intros Hbound.
  pose proof (int_strip_plain _ (plain_pretty z)) as Hstrip.
  destruct z as [|p|p]; [done|..].
  - unfold pretty, pretty_Z, pretty, pretty_positive, pretty, pretty_N in *.
    rewrite decide_False in * by done.
    rewrite int_unsigned; [|by apply pretty_N_go_head|done].
    by apply int_literal_pretty_N_go.
  - unfold pretty, pretty_Z, pretty, pretty_positive, pretty, pretty_N in *.
    rewrite decide_False in * by done.
    unfold int. rewrite Hstrip.
    change ("-" +:+ pretty_N_go (N.pos p) EmptyString)
      with (String "-"%char (pretty_N_go (N.pos p) EmptyString)).
    cbv iota beta.
    by rewrite int_literal_pretty_N_go.
Qed.

(** A hiscore line is read back exactly: three integers written in decimal
    and separated by commas, as the feed writes a skill, are parsed to the
    rank, level and experience they spell, negative values (the feed's -1
    for "unranked") included, as long as none has more than the 4300
    digits [int()] accepts. *)
Theorem skill_line_reads_back rank level xp :
  Z.abs rank < 10 ^ Z.of_N max_str_digits →
  Z.abs level < 10 ^ Z.of_N max_str_digits →
  Z.abs xp < 10 ^ Z.of_N max_str_digits →
  skill_line (hiscore_line rank level xp) = Some (mkSkillEntry rank level xp).
Proof.
  intros Hrank Hlevel Hxp.
  unfold skill_line, hiscore_line.
  change ("," +:+ pretty level +:+ "," +:+ pretty xp)
    with (String ","%char (pretty level +:+ String ","%char (pretty xp))).
  rewrite !split_plain, split_plain_end by apply plain_pretty.
  by rewrite !int_pretty.
Qed.

Lemma skill_line_reads_back_witness :
  skill_line "-1,2277,460000000" = Some (mkSkillEntry (-1) 2277 460000000).
Proof.
  apply (skill_line_reads_back (-1) 2277 460000000); by vm_compute.
Defined.

(** ** What [int()] refuses *)

(** [int()] does not skip the separators 28 to 31 that [str.strip] removes,
    and refuses a literal of more than 4300 digits: a line with either is
    malformed. *)
Example int_refuses :
  int (String "028"%char "1") = None ∧
  strip (String "028"%char "1") = "1" ∧
  malformed (String "028"%char "1,2,3") ∧
  int (string_of_list_ascii (replicate 4300 "1"%char)) ≠ None ∧
  int (string_of_list_ascii (replicate 4301 "1"%char)) = None ∧
  int (string_of_list_ascii (replicate 4301 "0"%char)) = None.
Proof. split_and!; by vm_compute. Qed.

End GameStatsRestSpec.
